(** * PikaClean: the CSV to SQL INSERT converter (db/sql/csv_to_insert.py)

    A shallow embedding of [csv_to_sql_insert] and of the interactive entry
    point, together with the parts of the Python runtime the routine relies
    on: [str.join], [str.replace], text-file iteration with [newline=''],
    the [csv.reader] state machine for the dialect the script selects
    (excel, [delimiter=';']) and [csv.DictReader].

    Conventions.
    - A Python [str] is a [string]; one [ascii] stands for one decoded
      character of the file.
    - An exception is a value of [exn]; code that may raise lives in
      [result].
    - The file system is a finite map from paths to file contents and the
      console is the list of lines handed to [print].  Every stored file can
      be opened for reading and every path can be opened for writing;
      directories and permissions are outside the model. *)

From Stdlib Require Import Ascii String NArith.
From stdpp Require Import base option list strings gmap.

(** ** Exceptions *)

Inductive exn : Type :=
  | FileNotFoundError (filename : string)
  | ValueError (msg : string)
  | AttributeError (msg : string)
  | KeyError (key : string)
  | csv_Error (msg : string).

Inductive result (A : Type) : Type :=
  | Ok (a : A)
  | Raise (e : exn).
Arguments Ok {A} a.
Arguments Raise {A} e.

#[global] Instance result_ret : MRet result := λ A a, Ok a.
#[global] Instance result_bind : MBind result := λ A B f m,
  match m with
  | Ok a => f a
  | Raise e => Raise e
  end.

#[global] Instance result_fmap : FMap result := λ A B f m,
  match m with
  | Ok a => Ok (f a)
  | Raise e => Raise e
  end.

Definition succeeded {A} (r : result A) : bool :=
  match r with Ok _ => true | Raise _ => false end.

(** ** Python strings *)

Module Py.

Definition LF : ascii := "010"%char.
Definition CR : ascii := "013"%char.
Definition newline : string := String LF "".

(** [sep.join(l)] *)
Definition join (sep : string) (l : list string) : string := String.concat sep l.

(** [s.replace(old, new)]: the occurrences of [old] are found left to right
    and do not overlap.  [skip] counts the characters of a matched occurrence
    still to be dropped. *)
Fixpoint replace_from (old new : string) (skip : nat) (s : string) : string :=
  match s with
  | EmptyString => ""
  | String c s' =>
      match skip with
      | S k => replace_from old new k s'
      | O =>
          if String.prefix old s
          then new +:+ replace_from old new (String.length old - 1) s'
          else String c (replace_from old new 0 s')
      end
  end.

(** With an empty [old], Python puts [new] before every character and at the
    end. *)
Fixpoint intersperse_all (new s : string) : string :=
  match s with
  | EmptyString => new
  | String c s' => new +:+ String c (intersperse_all new s')
  end.

Definition replace (s old new : string) : string :=
  match old with
  | EmptyString => intersperse_all new s
  | _ => replace_from old new 0 s
  end.

(** A value read out of a [DictReader] row is a [str] or [None]. *)
Definition value : Type := option string.

(** [str(value)] *)
Definition str (v : value) : string :=
  match v with
  | Some s => s
  | None => "None"
  end.

(** [value.replace(old, new)]: [None] has no such method. *)
Definition replace_method (v : value) (old new : string) : result string :=
  match v with
  | Some s => Ok (replace s old new)
  | None => Raise (AttributeError "'NoneType' object has no attribute 'replace'")
  end.

(** [str(e)] for a caught exception.  Two cases are never printed by the
    converter and are rendered for names that need no escaping: a
    [FileNotFoundError] is caught by the handler that prints the path
    instead, and a [KeyError] (whose text is the [repr] of the key) is never
    raised (see [for_col_no_KeyError] below). *)
Definition exn_str (e : exn) : string :=
  match e with
  | FileNotFoundError f => "[Errno 2] No such file or directory: '" +:+ f +:+ "'"
  | ValueError m => m
  | AttributeError m => m
  | KeyError k => "'" +:+ k +:+ "'"
  | csv_Error m => m
  end.

(** Iterating a text file opened with [newline='']: lines end at LF, CR or
    CR LF and keep their terminator untranslated. *)
Fixpoint readlines_from (cur s : string) : list string :=
  match s with
  | EmptyString => match cur with EmptyString => [] | _ => [cur] end
  | String c s' =>
      if Ascii.eqb c LF then (cur +:+ String c "") :: readlines_from "" s'
      else if Ascii.eqb c CR then
        match s' with
        | String c' s'' =>
            if Ascii.eqb c' LF
            then (cur +:+ String c (String c' "")) :: readlines_from "" s''
            else (cur +:+ String c "") :: readlines_from "" s'
        | EmptyString => [cur +:+ String c ""]
        end
      else readlines_from (cur +:+ String c "") s'
  end.

Definition readlines (s : string) : list string := readlines_from "" s.

End Py.

(** ** Generators

    The finite trace of a Python iterator: the items it yields, ended by
    [StopIteration] or by the exception that a call of [next] raises. *)

Inductive gen (A : Type) : Type :=
  | Stop
  | Throw (e : exn)
  | Yield (a : A) (g : gen A).
Arguments Stop {A}.
Arguments Throw {A} e.
Arguments Yield {A} a g.

Fixpoint items {A} (g : gen A) : list A :=
  match g with
  | Yield a g' => a :: items g'
  | _ => []
  end.

Fixpoint ending {A} (g : gen A) : option exn :=
  match g with
  | Stop => None
  | Throw e => Some e
  | Yield _ g' => ending g'
  end.

(** ** The csv module *)

Module csv.

Inductive ParserState : Type :=
  | START_RECORD | START_FIELD | ESCAPED_CHAR | IN_FIELD | IN_QUOTED_FIELD
  | ESCAPE_IN_QUOTED_FIELD | QUOTE_IN_QUOTED_FIELD | EAT_CRNL
  | AFTER_ESCAPED_CRNL.

#[global] Instance ParserState_eq_dec : EqDecision ParserState.
Proof. solve_decision. Defined.

Record Dialect : Type := {
  delimiter : ascii;
  quotechar : option ascii;
  escapechar : option ascii;
  doublequote : bool;
  skipinitialspace : bool;
  strict : bool;
  quoting_none : bool            (* quoting == QUOTE_NONE *)
}.

(** The excel dialect with the delimiter the script passes. *)
Definition excel_semicolon : Dialect := {|
  delimiter := ";"%char;
  quotechar := Some "034"%char;
  escapechar := None;
  doublequote := true;
  skipinitialspace := false;
  strict := false;
  quoting_none := false
|}.

Definition field_limit : N := 131072.

Record ReaderObj : Type := {
  state : ParserState;
  fields : list string;
  field : string
}.

Definition parse_reset : ReaderObj :=
  {| state := START_RECORD; fields := []; field := "" |}.

Definition set_state (st : ParserState) (self : ReaderObj) : ReaderObj :=
  {| state := st; fields := fields self; field := field self |}.

Definition parse_save_field (self : ReaderObj) : ReaderObj :=
  {| state := state self; fields := fields self ++ [field self]; field := "" |}.

Definition parse_add_char (self : ReaderObj) (c : ascii) : result ReaderObj :=
  if (field_limit <=? N.of_nat (String.length (field self)))%N
  then Raise (csv_Error "field larger than field limit (131072)")
  else Ok {| state := state self; fields := fields self;
             field := field self +:+ String c "" |}.

Definition is_char (c : ascii) (o : option ascii) : bool :=
  match o with
  | Some c' => Ascii.eqb c c'
  | None => false
  end.

Definition is_crnl (c : ascii) : bool := Ascii.eqb c Py.LF || Ascii.eqb c Py.CR.

Section parse.
Variable dialect : Dialect.

(** One step of the parser; [None] is the end-of-line marker fed after the
    last character of every line. *)
Definition in_field (self : ReaderObj) (c : option ascii) : result ReaderObj :=
  match c with
  | None => Ok (set_state START_RECORD (parse_save_field self))
  | Some ch =>
      if is_crnl ch then Ok (set_state EAT_CRNL (parse_save_field self))
      else if is_char ch (escapechar dialect) then Ok (set_state ESCAPED_CHAR self)
      else if Ascii.eqb ch (delimiter dialect)
      then Ok (set_state START_FIELD (parse_save_field self))
      else parse_add_char self ch
  end.

Definition start_field (self : ReaderObj) (c : option ascii) : result ReaderObj :=
  match c with
  | None => Ok (set_state START_RECORD (parse_save_field self))
  | Some ch =>
      if is_crnl ch then Ok (set_state EAT_CRNL (parse_save_field self))
      else if is_char ch (quotechar dialect) && negb (quoting_none dialect)
      then Ok (set_state IN_QUOTED_FIELD self)
      else if is_char ch (escapechar dialect) then Ok (set_state ESCAPED_CHAR self)
      else if Ascii.eqb ch " " && skipinitialspace dialect then Ok self
      else if Ascii.eqb ch (delimiter dialect) then Ok (parse_save_field self)
      else set_state IN_FIELD <$> parse_add_char self ch
  end.

Definition parse_process_char (self : ReaderObj) (c : option ascii) : result ReaderObj :=
  match state self with
  | START_RECORD =>
      match c with
      | None => Ok self
      | Some ch =>
          if is_crnl ch then Ok (set_state EAT_CRNL self)
          else start_field (set_state START_FIELD self) c
      end
  | START_FIELD => start_field self c
  | ESCAPED_CHAR =>
      match c with
      | Some ch =>
          if is_crnl ch
          then set_state AFTER_ESCAPED_CRNL <$> parse_add_char self ch
          else set_state IN_FIELD <$> parse_add_char self ch
      | None => set_state IN_FIELD <$> parse_add_char self Py.LF
      end
  | AFTER_ESCAPED_CRNL =>
      match c with
      | None => Ok self
      | Some _ => in_field self c
      end
  | IN_FIELD => in_field self c
  | IN_QUOTED_FIELD =>
      match c with
      | None => Ok self
      | Some ch =>
          if is_char ch (escapechar dialect)
          then Ok (set_state ESCAPE_IN_QUOTED_FIELD self)
          else if is_char ch (quotechar dialect) && negb (quoting_none dialect)
          then if doublequote dialect
               then Ok (set_state QUOTE_IN_QUOTED_FIELD self)
               else Ok (set_state IN_FIELD self)
          else parse_add_char self ch
      end
  | ESCAPE_IN_QUOTED_FIELD =>
      set_state IN_QUOTED_FIELD <$>
        parse_add_char self (match c with Some ch => ch | None => Py.LF end)
  | QUOTE_IN_QUOTED_FIELD =>
      match c with
      | None => Ok (set_state START_RECORD (parse_save_field self))
      | Some ch =>
          if negb (quoting_none dialect) && is_char ch (quotechar dialect)
          then set_state IN_QUOTED_FIELD <$> parse_add_char self ch
          else if Ascii.eqb ch (delimiter dialect)
          then Ok (set_state START_FIELD (parse_save_field self))
          else if is_crnl ch then Ok (set_state EAT_CRNL (parse_save_field self))
          else if negb (strict dialect)
          then set_state IN_FIELD <$> parse_add_char self ch
          else Raise (csv_Error
                 ("'" +:+ String (delimiter dialect) "' expected after '"
                  +:+ String (default "000"%char (quotechar dialect)) "'"))
      end
  | EAT_CRNL =>
      match c with
      | None => Ok (set_state START_RECORD self)
      | Some ch =>
          if is_crnl ch then Ok self
          else Raise (csv_Error
                 "new-line character seen in unquoted field - do you need to open the file with newline=''?")
      end
  end.

(** The characters of one line, then the end-of-line marker.  As in
    CPython 3.11 and later, a NUL character is an ordinary character. *)
Fixpoint parse_line (self : ReaderObj) (line : string) : result ReaderObj :=
  match line with
  | EmptyString => parse_process_char self None
  | String c line' =>
      self' ← parse_process_char self (Some c);
      parse_line self' line'
  end.

(** [Reader_iternext], called until the input is exhausted: lines are taken
    from the input iterator until the parser is back in [START_RECORD], then
    the collected fields are yielded and the parser is reset for the next
    call. *)
Fixpoint reader_from (self : ReaderObj) (lines : list string) : gen (list string) :=
  match lines with
  | [] =>
      if negb (String.length (field self) =? 0) || bool_decide (state self = IN_QUOTED_FIELD)
      then if strict dialect then Throw (csv_Error "unexpected end of data")
           else Yield (fields (parse_save_field self)) Stop
      else Stop
  | line :: rest =>
      match parse_line self line with
      | Raise e => Throw e
      | Ok self' =>
          if bool_decide (state self' = START_RECORD)
          then Yield (fields self') (reader_from parse_reset rest)
          else reader_from self' rest
      end
  end.

End parse.

(** [csv.reader(csv_file, delimiter=';')] *)
Definition reader (lines : list string) : gen (list string) :=
  reader_from excel_semicolon parse_reset lines.

(** *** DictReader

    A row is the dict [__next__] builds.  Its keys are the field names (of
    type [str]) and, for a record longer than the header, the [restkey]
    [None], which holds the list of surplus fields; the two kinds of entry
    are kept apart so that every value under a field name is a [Py.value]. *)
Record Row : Type := {
  named : gmap string Py.value;
  restkey : option (list string)
}.

(** [dict(zip(fieldnames, row))]: a later pair overwrites an earlier one
    with the same key. *)
Definition dict_zip (fieldnames row : list string) : gmap string Py.value :=
  foldl (λ d kv, <[kv.1 := Some kv.2]> d) ∅ (zip fieldnames row).

(** [for key in keys: d[key] = restval], with the default [restval=None]. *)
Definition fill_restval (keys : list string) (d : gmap string Py.value)
  : gmap string Py.value :=
  foldl (λ d key, <[key := None]> d) d keys.

Definition make_row (fieldnames row : list string) : Row :=
  let d := dict_zip fieldnames row in
  let lf := length fieldnames in
  let lr := length row in
  if lf <? lr then {| named := d; restkey := Some (drop lf row) |}
  else if lr <? lf
  then {| named := fill_restval (drop lr fieldnames) d; restkey := None |}
  else {| named := d; restkey := None |}.

(** The [fieldnames] property on first access: the first record of the
    underlying reader, blank or not; [None] when the reader is exhausted. *)
Definition fieldnames (r : gen (list string))
  : result (option (list string) * gen (list string)) :=
  match r with
  | Stop => Ok (None, Stop)
  | Throw e => Raise e
  | Yield row r' => Ok (Some row, r')
  end.

(** Iterating the [DictReader] once [fieldnames] is set: blank records are
    skipped, every other record becomes a row. *)
Fixpoint DictReader (fieldnames : list string) (r : gen (list string)) : gen Row :=
  match r with
  | Stop => Stop
  | Throw e => Throw e
  | Yield [] r' => DictReader fieldnames r'
  | Yield row r' => Yield (make_row fieldnames row) (DictReader fieldnames r')
  end.

(** [row[col]] *)
Definition getitem (row : Row) (col : string) : result Py.value :=
  match named row !! col with
  | Some v => Ok v
  | None => Raise (KeyError col)
  end.

End csv.

(** ** The world the script runs in *)

Record World : Type := {
  files : gmap string string;
  stdout : list string
}.

Definition print (line : string) (w : World) : World :=
  {| files := files w; stdout := stdout w ++ [line] |}.

(** [open(path, mode='w')]: the file is created, or truncated when it
    exists. *)
Definition open_w (path : string) (w : World) : World :=
  {| files := <[path := ""]> (files w); stdout := stdout w |}.

(** Closing a file opened for writing leaves what was written to it. *)
Definition close_w (path written : string) (w : World) : World :=
  {| files := <[path := written]> (files w); stdout := stdout w |}.

Definition os_path_exists (w : World) (path : string) : bool :=
  bool_decide (is_Some (files w !! path)).

(** Code that writes to the open [sql_file] and may raise: the text written
    so far is threaded through, and stays written when an exception leaves
    the [with] block. *)
Definition Writer (A : Type) : Type := string → result A * string.

#[global] Instance Writer_ret : MRet Writer := λ A a written, (Ok a, written).
#[global] Instance Writer_bind : MBind Writer := λ A B f m written,
  match m written with
  | (Ok a, written') => f a written'
  | (Raise e, written') => (Raise e, written')
  end.

Definition write (s : string) : Writer () := λ written, (Ok (), written +:+ s).
Definition lift {A} (r : result A) : Writer A := λ written, (r, written).

(** ** csv_to_insert.py *)

Definition NumericColumns : list string := ["status"; "rate"].

(** Lines 82-87: the body of [for col in columns]. *)
Definition format_value (col : string) (value : Py.value) : result string :=
  if bool_decide (col ∈ NumericColumns) then Ok (Py.str value)
  else
    escaped_value ← Py.replace_method value "'" "''";
    Ok ("'" +:+ escaped_value +:+ "'").

(** Lines 81-87: [for col in columns], appending to [values]. *)
Fixpoint for_col (row : csv.Row) (columns : list string) (values : list string)
  : result (list string) :=
  match columns with
  | [] => Ok values
  | col :: columns' =>
      value ← csv.getitem row col;
      s ← format_value col value;
      for_col row columns' (values ++ [s])
  end.

(** Lines 79-89: [for row in csv_reader], appending to [rows]. *)
Fixpoint for_row (columns : list string) (csv_reader : gen csv.Row) (rows : list string)
  : result (list string) :=
  match csv_reader with
  | Stop => Ok rows
  | Throw e => Raise e
  | Yield row csv_reader' =>
      values ← for_col row columns [];
      for_row columns csv_reader' (rows ++ ["(" +:+ Py.join ", " values +:+ ")"])
  end.

(** Lines 70-92: the body of the [with] statement, run on the text the input
    handle delivers. *)
Definition with_body (table_name csv_text : string) : Writer () :=
  r ← lift (csv.fieldnames (csv.reader (Py.readlines csv_text)));
  match r.1 with
  | None | Some [] => lift (Raise (ValueError "CSV file has no headers"))
  | Some columns =>
      write ("INSERT INTO " +:+ table_name +:+ " (" +:+ Py.join ", " columns
             +:+ ") VALUES" +:+ Py.newline);;
      rows ← lift (for_row columns (csv.DictReader columns r.2) []);
      write (Py.join ("," +:+ Py.newline) rows);;
      write ";"
  end.

(** Lines 66-68 and 94: both files are opened, the input first; the body
    runs; the output is closed on every path; the success line is printed
    when nothing was raised.  Opening the input reads nothing yet: the
    reader pulls its first line inside the body, after the output path has
    been truncated, so the text is looked up in the world [open_w] leaves. *)
Definition try_block (csv_file_path output_file_path table_name : string) (w : World)
  : result () * World :=
  match files w !! csv_file_path with
  | None => (Raise (FileNotFoundError csv_file_path), w)
  | Some _ =>
      let w1 := open_w output_file_path w in
      let csv_text := default "" (files w1 !! csv_file_path) in
      let '(r, written) := with_body table_name csv_text "" in
      let w2 := close_w output_file_path written w1 in
      match r with
      | Ok _ =>
          (Ok (), print ("Successfully converted CSV to SQL INSERT statements. Output saved to "
                         +:+ output_file_path) w2)
      | Raise e => (Raise e, w2)
      end
  end.

Definition csv_to_sql_insert (csv_file_path output_file_path table_name : string) (w : World)
  : World :=
  match try_block csv_file_path output_file_path table_name w with
  | (Ok _, w') => w'
  | (Raise (FileNotFoundError _), w') =>
      print ("Error: File not found - " +:+ csv_file_path) w'
  | (Raise e, w') => print ("An error occurred: " +:+ Py.exn_str e) w'
  end.

(** Lines 101-109: the entry point, given the three answers typed at the
    prompts of [input]; [stdout] holds the lines of [print], the prompts are
    not recorded. *)
Definition main (input_csv output_sql table_name : string) (w : World) : World :=
  if negb (os_path_exists w input_csv)
  then print ("Error: Input file '" +:+ input_csv +:+ "' not found") w
  else csv_to_sql_insert input_csv output_sql table_name w.

(** * Vocabulary of the properties *)

(** ** Escaping *)

Definition quote : ascii := "'"%char.

(** The escaping in the words of the specification: every single quote of
    the value is doubled, every other character is kept. *)
Fixpoint double_quotes (s : string) : string :=
  match s with
  | EmptyString => ""
  | String c s' =>
      if Ascii.eqb c quote then String quote (String quote (double_quotes s'))
      else String c (double_quotes s')
  end.

Fixpoint occurrences (c : ascii) (s : string) : nat :=
  match s with
  | EmptyString => 0
  | String c' s' => (if Ascii.eqb c' c then 1 else 0) + occurrences c s'
  end.

(** Reading a doubled quote back as one quote, as SQL does inside a string
    literal. *)
Fixpoint undouble (s : string) : string :=
  match s with
  | EmptyString => ""
  | String c s' =>
      if Ascii.eqb c quote then
        match s' with
        | String c' s'' =>
            if Ascii.eqb c' quote then String quote (undouble s'')
            else String c (undouble s')
        | EmptyString => String c ""
        end
      else String c (undouble s')
  end.

(** ** Tuples and rows *)

Definition NoneType_replace : exn :=
  AttributeError "'NoneType' object has no attribute 'replace'".

(** The text of one value tuple (line 89). *)
Definition tuple_text (values : list string) : string :=
  "(" +:+ Py.join ", " values +:+ ")".

(** [s] is what the converter emits for column [col] of [row]. *)
Definition emitted (row : csv.Row) (col s : string) : Prop :=
  ∃ v, csv.named row !! col = Some v ∧ format_value col v = Ok s.

(** [tu] is the tuple of [row]: one emitted value per column, in the order
    of [columns]. *)
Definition tuple_of (columns : list string) (row : csv.Row) (tu : string) : Prop :=
  ∃ values, tu = tuple_text values ∧ Forall2 (emitted row) columns values.

(** A row lacks a value the converter needs as a string. *)
Definition lacks_string (columns : list string) (row : csv.Row) : Prop :=
  ∃ col, col ∈ columns ∧ (col ∉ NumericColumns) ∧ csv.named row !! col = Some None.

Definition has_keys (columns : list string) (row : csv.Row) : Prop :=
  ∀ col, col ∈ columns → is_Some (csv.named row !! col).

Definition non_blank (rec : list string) : Prop := rec ≠ [].

#[local] Instance non_blank_dec rec : Decision (non_blank rec).
Proof. unfold non_blank. apply _. Defined.

(** The data rows of an input: the records after the header that are not
    blank. *)
Definition data_rows (recs : gen (list string)) : list (list string) :=
  filter non_blank (items recs).

(** ** Outcomes of a run *)

Definition is_csv_Error (e : exn) : Prop := ∃ msg, e = csv_Error msg.

(** The first line of the statement (line 76). *)
Definition insert_line (table_name : string) (columns : list string) : string :=
  "INSERT INTO " +:+ table_name +:+ " (" +:+ Py.join ", " columns
  +:+ ") VALUES" +:+ Py.newline.

(** The whole statement for the given tuples (lines 76, 91, 92). *)
Definition statement (table_name : string) (columns tuples : list string) : string :=
  insert_line table_name columns +:+ Py.join ("," +:+ Py.newline) tuples +:+ ";".

(** The records the reader delivers for an input text. *)
Definition records (csv_text : string) : gen (list string) :=
  csv.reader (Py.readlines csv_text).

(** The input has no header: the reader is exhausted at once, or its first
    record is blank. *)
Definition headerless (csv_text : string) : Prop :=
  records csv_text = Stop ∨ ∃ recs, records csv_text = Yield [] recs.

Definition success_line (output_file_path : string) : string :=
  "Successfully converted CSV to SQL INSERT statements. Output saved to "
  +:+ output_file_path.

Definition error_line (e : exn) : string := "An error occurred: " +:+ Py.exn_str e.

Definition not_found_line (csv_file_path : string) : string :=
  "Error: File not found - " +:+ csv_file_path.

Definition is_FileNotFoundError (e : exn) : bool :=
  match e with FileNotFoundError _ => true | _ => false end.

(** The line the routine prints for the outcome of its [try] block. *)
Definition report (csv_file_path output_file_path : string) (r : result ()) : string :=
  match r with
  | Ok _ => success_line output_file_path
  | Raise e =>
      if is_FileNotFoundError e then not_found_line csv_file_path else error_line e
  end.

(** Every data row supplies a value for every column of the header. *)
Definition rows_full (columns : list string) (recs : gen (list string)) : Prop :=
  Forall (λ rec, length columns ≤ length rec) (data_rows recs).

(** The values of [rec] stand in the tuple at the positions of their
    columns. *)
Definition positional (columns rec values : list string) : Prop :=
  ∀ k col, columns !! k = Some col →
    ∃ v s, rec !! k = Some v ∧ values !! k = Some s
           ∧ format_value col (Some v) = Ok s.

(** What a run adds to the console. *)
Definition printed (w w' : World) : list string := drop (length (stdout w)) (stdout w').

(** ** The lines of the input *)

(** Every character of [l] is CR or LF. *)
Fixpoint all_crnl (l : string) : bool :=
  match l with
  | EmptyString => true
  | String c l' => csv.is_crnl c && all_crnl l'
  end.

(** No character of [l] is CR or LF. *)
Fixpoint no_crnl (l : string) : bool :=
  match l with
  | EmptyString => true
  | String c l' => negb (csv.is_crnl c) && no_crnl l'
  end.

(** CR and LF occur in [l] only as a run at its end. *)
Fixpoint crnl_at_end (l : string) : bool :=
  match l with
  | EmptyString => true
  | String c l' => if csv.is_crnl c then all_crnl l' else crnl_at_end l'
  end.

Definition total_length (lines : list string) : nat :=
  sum_list (String.length <$> lines).

Definition field_too_large : exn :=
  csv_Error "field larger than field limit (131072)".

(** The parser states the excel dialect, which has no escape character,
    can be in. *)
Definition escape_free (st : csv.ParserState) : bool :=
  match st with
  | csv.ESCAPED_CHAR | csv.ESCAPE_IN_QUOTED_FIELD | csv.AFTER_ESCAPED_CRNL => false
  | _ => true
  end.

(** The number of characters a parser step consumes. *)
Definition chars (c : option ascii) : nat :=
  match c with Some _ => 1 | None => 0 end.

(** ** Example inputs *)

Definition example_header : string :=
  "id;worker_id;user_id;status;deadline;address;creation_date;rate".

Definition example_row : string := "1;7;3;1;2024-01-01;O'Hara St;2023-12-01;9.5".

Definition example_statement : string :=
  "INSERT INTO orders (id, worker_id, user_id, status, deadline, address, creation_date, rate) VALUES"
  +:+ Py.newline
  +:+ "('1', '7', '3', 1, '2024-01-01', 'O''Hara St', '2023-12-01', 9.5);".

Definition CRLF : string := String Py.CR (String Py.LF "").

Definition example_world : World := {|
  files := {[ "orders_data.csv" := example_header +:+ Py.newline +:+ example_row ]};
  stdout := []
|}.

Definition example_columns : list string := ["id"; "address"; "status"].
Definition example_record : list string := ["1"; "O'Hara St"; "it's n/a"].

Definition two_rows_text : string :=
  "id;address;status" +:+ Py.newline
  +:+ "1;O'Hara St;1" +:+ Py.newline
  +:+ Py.newline
  +:+ "2;Main Sq;0;extra" +:+ Py.newline.

Definition two_rows_world : World :=
  {| files := {[ "in.csv" := two_rows_text ]}; stdout := ["earlier output"] |}.

Definition two_rows_recs : gen (list string) :=
  Yield ["1"; "O'Hara St"; "1"]
    (Yield [] (Yield ["2"; "Main Sq"; "0"; "extra"] Stop)).

Definition empty_input_world : World :=
  {| files := {[ "empty.csv" := "" ]}; stdout := [] |}.

Definition short_status_text : string :=
  "id;status" +:+ Py.newline +:+ "1" +:+ Py.newline.

Definition short_status_world : World :=
  {| files := {[ "in.csv" := short_status_text ]}; stdout := [] |}.

Definition short_name_text : string :=
  "id;name;status" +:+ Py.newline
  +:+ "1;Ann;1" +:+ Py.newline
  +:+ "2" +:+ Py.newline.

Definition short_name_world : World :=
  {| files := {[ "in.csv" := short_name_text ]}; stdout := [] |}.

Definition no_input_world : World :=
  {| files := {[ "out.sql" := "-- kept" ]}; stdout := [] |}.

Definition other_world : World := {|
  files := {[ "orders_data.csv" := example_header +:+ Py.newline +:+ example_row;
              "orders_data.sql" := "-- left over from an earlier run";
              "notes.txt" := "unrelated" ]};
  stdout := ["printed before the run"]
|}.

(** ** Further vocabulary *)


(** Reading a standard SQL string literal off the front of [s]: after the
    opening quote, the characters up to the first quote that is not doubled,
    every doubled quote read as one quote; the result is the value and the
    text after the closing quote. *)
Fixpoint read_literal_body (s : string) : option (string * string) :=
  match s with
  | EmptyString => None
  | String c s' =>
      if Ascii.eqb c quote then
        match s' with
        | String c' s'' =>
            if Ascii.eqb c' quote
            then prod_map (String quote) id <$> read_literal_body s''
            else Some ("", s')
        | EmptyString => Some ("", "")
        end
      else prod_map (String c) id <$> read_literal_body s'
  end.

Definition read_literal (s : string) : option (string * string) :=
  match s with
  | String c s' => if Ascii.eqb c quote then read_literal_body s' else None
  | EmptyString => None
  end.

Definition starts_with_quote (s : string) : bool :=
  match s with
  | String c _ => Ascii.eqb c quote
  | EmptyString => false
  end.

(** The generator that yields the items of a list. *)
Fixpoint of_list {A} (l : list A) : gen A :=
  match l with
  | [] => Stop
  | a :: l' => Yield a (of_list l')
  end.

(** [s.split(delim)] for a one-character delimiter; [cur] is the piece being
    collected. *)
Fixpoint split_from (delim : ascii) (cur s : string) : list string :=
  match s with
  | EmptyString => [cur]
  | String c s' =>
      if Ascii.eqb c delim then cur :: split_from delim "" s'
      else split_from delim (cur +:+ String c "") s'
  end.

Definition split (delim : ascii) (s : string) : list string := split_from delim "" s.

(** No character of [s] is a double quote, CR or LF. *)
Fixpoint no_special (s : string) : bool :=
  match s with
  | EmptyString => true
  | String c s' =>
      negb (Ascii.eqb c "034"%char) && negb (csv.is_crnl c) && no_special s'
  end.

(** A line the reader takes as it is written: not empty, without double
    quote, CR or LF, and within the field limit. *)
Definition plain_line (s : string) : Prop :=
  s ≠ "" ∧ no_special s ∧ String.length s ≤ N.to_nat csv.field_limit.

(** The text of a file with the given lines, each ended by [eol]. *)
Fixpoint text_of (eol : string) (lines : list string) : string :=
  match lines with
  | [] => ""
  | l :: lines' => l +:+ eol +:+ text_of eol lines'
  end.

(** The value and the tuple the converter writes, as functions of the
    fields of a line. *)
Definition render_value (col v : string) : string :=
  if bool_decide (col ∈ NumericColumns) then v
  else "'" +:+ double_quotes v +:+ "'".

Definition render_tuple (columns fields : list string) : string :=
  "(" +:+ Py.join ", " (zip_with render_value columns fields) +:+ ")".

Definition plain_world : World := {|
  files := {[ "in.csv" := text_of CRLF ["id;name;rate"; "1;O'Hara;9.5"; "2;;x;y"] ]};
  stdout := []
|}.

Definition header_only_text : string :=
  "id;name" +:+ Py.newline +:+ Py.newline.

Definition header_only_world : World :=
  {| files := {[ "in.csv" := header_only_text ]}; stdout := [] |}.






(** * Properties *)

(** ** Strings *)

Section strings.

Lemma replace_quote_double_quotes (s : string) :
  Py.replace s "'" "''" = double_quotes s.
Proof.
  unfold Py.replace.
  induction s as [|c s IH]; [done|].
  cbn [Py.replace_from double_quotes String.prefix String.length].
  destruct (Ascii.eqb_spec c quote) as [->|Hc].
  - cbn. replace (String.prefix "" s) with true by (by destruct s).
    rewrite IH. reflexivity.
  - destruct (ascii_dec "'" c) as [Heq|_]; [by destruct Hc|].
    by rewrite IH.
Qed.

Lemma occurrences_double_quotes (s : string) :
  occurrences quote (double_quotes s) = 2 * occurrences quote s.
Proof.
  induction s as [|c s IH]; [done|].
  cbn [double_quotes occurrences].
  destruct (Ascii.eqb_spec c quote) as [->|Hc]; cbn [occurrences].
  - rewrite Ascii.eqb_refl, IH. lia.
  - destruct (Ascii.eqb_spec c quote); [done|]. rewrite IH. lia.
Qed.

Lemma undouble_double_quotes (s : string) : undouble (double_quotes s) = s.
Proof.
  induction s as [|c s IH]; [done|].
  cbn [double_quotes].
  destruct (Ascii.eqb_spec c quote) as [->|Hc].
  - cbn [undouble]. rewrite !Ascii.eqb_refl. by rewrite IH.
  - cbn [undouble]. destruct (Ascii.eqb_spec c quote); [done|]. by rewrite IH.
Qed.

Lemma length_double_quotes (s : string) :
  String.length (double_quotes s) = String.length s + occurrences quote s.
Proof.
  induction s as [|c s IH]; [done|].
  cbn [double_quotes occurrences String.length].
  destruct (Ascii.eqb c quote); cbn [String.length]; rewrite IH; lia.
Qed.

End strings.

(** ** The rows of a DictReader *)

Section rows.
Implicit Types (d : gmap string Py.value) (ks vs : list string) (col : string).

Local Abbreviation ins := (λ d (kv : string * string), <[kv.1 := Some kv.2]> d).

Lemma foldl_zip_lookup_notin ks vs d col :
  col ∉ take (length vs) ks →
  foldl ins d (zip ks vs) !! col = d !! col.
Proof.
  revert vs d. induction ks as [|k ks IH]; intros [|v vs] d Hnot; try done.
  cbn in Hnot |- *. apply not_elem_of_cons in Hnot as [Hne Hnot].
  rewrite IH by done. by rewrite lookup_insert_ne.
Qed.

Lemma foldl_zip_lookup_in ks vs d col :
  col ∈ take (length vs) ks →
  ∃ v, v ∈ vs ∧ foldl ins d (zip ks vs) !! col = Some (Some v).
Proof.
  revert vs d. induction ks as [|k ks IH]; intros [|v vs] d Hin;
    try by (cbn in Hin; apply elem_of_nil in Hin).
  cbn in Hin |- *.
  destruct (decide (col ∈ take (length vs) ks)) as [Hlater|Hlater].
  - destruct (IH vs (<[k:=Some v]> d) Hlater) as (v' & Hv' & Hlook).
    exists v'. split; [by right | done].
  - apply elem_of_cons in Hin as [->|Hin]; [|done].
    exists v. split; [by left|].
    rewrite foldl_zip_lookup_notin by done. by rewrite lookup_insert_eq.
Qed.

Lemma foldl_zip_lookup_NoDup ks vs d i col v :
  NoDup ks → ks !! i = Some col → vs !! i = Some v →
  foldl ins d (zip ks vs) !! col = Some (Some v).
Proof.
  revert vs d i. induction ks as [|k ks IH]; intros [|v0 vs] d i Hnd Hk Hv; try done.
  apply NoDup_cons in Hnd as [Hk0 Hnd]. cbn.
  destruct i as [|i]; cbn in Hk, Hv.
  - simplify_eq. rewrite foldl_zip_lookup_notin; [by rewrite lookup_insert_eq|].
    intros Hin. apply Hk0. by eapply subseteq_take.
  - by eapply IH.
Qed.

Lemma fill_restval_lookup keys d col :
  csv.fill_restval keys d !! col = if decide (col ∈ keys) then Some None else d !! col.
Proof.
  unfold csv.fill_restval. revert d.
  induction keys as [|k keys IH]; intros d; cbn.
  - case_decide as Hin; [by apply elem_of_nil in Hin | done].
  - rewrite IH. destruct (decide (col ∈ keys)) as [Hin|Hnot].
    + rewrite decide_True; [done | by right].
    + destruct (decide (col = k)) as [->|Hne].
      * rewrite decide_True by (by left). by rewrite lookup_insert_eq.
      * rewrite decide_False by (by intros [?|?]%elem_of_cons).
        by rewrite lookup_insert_ne.
Qed.

(** A record at least as long as the header gives every column a string. *)
Lemma make_row_lookup_full (fieldnames row : list string) col :
  length fieldnames ≤ length row → col ∈ fieldnames →
  ∃ v, v ∈ row ∧ csv.named (csv.make_row fieldnames row) !! col = Some (Some v).
Proof.
  intros Hlen Hin.
  assert (∃ v, v ∈ row ∧ csv.dict_zip fieldnames row !! col = Some (Some v)) as HH.
  { apply foldl_zip_lookup_in. by rewrite take_ge. }
  unfold csv.make_row. repeat case_match; try done.
  apply Nat.ltb_lt in H0. lia.
Qed.

(** With distinct column names the value under a name is the field at the
    name's position. *)
Lemma make_row_lookup_position (fieldnames row : list string) i col v :
  NoDup fieldnames → fieldnames !! i = Some col → row !! i = Some v →
  csv.named (csv.make_row fieldnames row) !! col = Some (Some v).
Proof.
  intros Hnd Hk Hv.
  assert (csv.dict_zip fieldnames row !! col = Some (Some v)) as HH
    by by eapply foldl_zip_lookup_NoDup.
  unfold csv.make_row. repeat case_match; try done.
  cbn. rewrite fill_restval_lookup.
  rewrite decide_False; [done|].
  intros [j Hj]%list_elem_of_lookup. rewrite lookup_drop in Hj.
  apply lookup_lt_Some in Hv.
  assert (i = length row + j) by by eapply NoDup_lookup. lia.
Qed.

(** A column the record is too short for is filled with [None]. *)
Lemma make_row_lookup_missing (fieldnames row : list string) col :
  col ∈ drop (length row) fieldnames →
  csv.named (csv.make_row fieldnames row) !! col = Some None.
Proof.
  intros Hin.
  assert (length row < length fieldnames) as Hlt.
  { destruct (decide (length row < length fieldnames)); [done|].
    rewrite drop_ge in Hin by lia. by apply elem_of_nil in Hin. }
  unfold csv.make_row.
  destruct (Nat.ltb_spec (length fieldnames) (length row)); [lia|].
  destruct (Nat.ltb_spec (length row) (length fieldnames)); [|lia].
  cbn. rewrite fill_restval_lookup. by rewrite decide_True.
Qed.

(** Every column of the header is a key of every row. *)
Lemma make_row_lookup_is_Some (fieldnames row : list string) col :
  col ∈ fieldnames → is_Some (csv.named (csv.make_row fieldnames row) !! col).
Proof.
  intros Hin.
  destruct (decide (col ∈ drop (length row) fieldnames)) as [Hd|Hd].
  { rewrite make_row_lookup_missing by done. by eexists. }
  assert (col ∈ take (length row) fieldnames) as Ht.
  { rewrite <- (take_drop (length row) fieldnames) in Hin.
    by apply elem_of_app in Hin as [?|?]. }
  destruct (foldl_zip_lookup_in fieldnames row ∅ col Ht) as (v & _ & Hv).
  unfold csv.make_row. repeat case_match; cbn; try by eexists.
  rewrite fill_restval_lookup, decide_False by done. by eexists.
Qed.

End rows.

(** ** The two loops *)

Section loops.
Implicit Types (row : csv.Row) (columns values rows : list string).

Lemma format_value_numeric col v :
  col ∈ NumericColumns → format_value col v = Ok (Py.str v).
Proof. intros Hin. unfold format_value. by rewrite bool_decide_eq_true_2. Qed.

Lemma format_value_string col s :
  col ∉ NumericColumns →
  format_value col (Some s) = Ok ("'" +:+ double_quotes s +:+ "'").
Proof.
  intros Hnot. unfold format_value, Py.replace_method.
  rewrite bool_decide_eq_false_2 by done.
  by rewrite replace_quote_double_quotes.
Qed.

Lemma format_value_None col :
  col ∉ NumericColumns → format_value col None = Raise NoneType_replace.
Proof. intros Hnot. unfold format_value. by rewrite bool_decide_eq_false_2. Qed.

Lemma format_value_Ok_inv col v s :
  format_value col v = Ok s → col ∈ NumericColumns ∨ is_Some v.
Proof.
  intros Hf. destruct (decide (col ∈ NumericColumns)) as [|Hnot]; [by left|].
  destruct v; [by right; eexists|]. by rewrite format_value_None in Hf.
Qed.

Lemma for_col_spec row columns values :
  has_keys columns row →
  (∃ vs, for_col row columns values = Ok (values ++ vs)
         ∧ Forall2 (emitted row) columns vs)
  ∨ (for_col row columns values = Raise NoneType_replace
     ∧ lacks_string columns row).
Proof.
  revert values. induction columns as [|col columns IH]; intros values Hkeys.
  { left. exists []. by rewrite app_nil_r. }
  destruct (Hkeys col) as [v Hv]; [by left|].
  assert (has_keys columns row) as Hkeys' by (intros c Hc; apply Hkeys; by right).
  cbn [for_col]. unfold csv.getitem. rewrite Hv. cbn.
  destruct (decide (col ∈ NumericColumns)) as [Hnum|Hnum]; [|destruct v as [s|]].
  - rewrite format_value_numeric by done. cbn.
    destruct (IH (values ++ [Py.str v]) Hkeys') as [(vs & -> & Hvs)|[-> Hlack]].
    + left. exists (Py.str v :: vs). rewrite <- app_assoc. split; [done|].
      constructor; [|done]. exists v. by rewrite format_value_numeric.
    + right. split; [done|]. destruct Hlack as (c & ? & ? & ?).
      exists c. split_and!; [by right|done..].
  - rewrite format_value_string by done. cbn.
    destruct (IH (values ++ ["'" +:+ double_quotes s +:+ "'"]) Hkeys')
      as [(vs & -> & Hvs)|[-> Hlack]].
    + left. eexists (_ :: vs). rewrite <- app_assoc. split; [done|].
      constructor; [|done]. exists (Some s). by rewrite format_value_string.
    + right. split; [done|]. destruct Hlack as (c & ? & ? & ?).
      exists c. split_and!; [by right|done..].
  - rewrite format_value_None by done. right. split; [done|].
    exists col. split_and!; [by left|done..].
Qed.

Lemma emitted_not_lacking row columns vs :
  Forall2 (emitted row) columns vs → ¬ lacks_string columns row.
Proof.
  intros HF (col & Hin & Hnum & Hnone).
  apply list_elem_of_lookup in Hin as [i Hi].
  destruct (Forall2_lookup_l _ _ _ _ _ HF Hi) as (s & _ & v & Hv & Hfmt).
  pose proof (eq_trans (eq_sym Hv) Hnone) as [= ->]. by rewrite format_value_None in Hfmt.
Qed.

(** The converter never looks up a key a row does not have. *)
Lemma for_col_no_KeyError row columns values key :
  has_keys columns row → for_col row columns values ≠ Raise (KeyError key).
Proof.
  intros Hkeys. by destruct (for_col_spec row columns values Hkeys)
    as [(vs & -> & _)|[-> _]].
Qed.

Lemma for_row_ok columns (g : gen csv.Row) rows :
  ending g = None →
  Forall (has_keys columns) (items g) →
  Forall (λ row, ¬ lacks_string columns row) (items g) →
  ∃ tuples, for_row columns g rows = Ok (rows ++ tuples)
            ∧ Forall2 (tuple_of columns) (items g) tuples.
Proof.
  revert rows. induction g as [|e|row g IH]; intros rows Hend Hkeys Hfull; [|done|].
  { exists []. by rewrite app_nil_r. }
  cbn [ending items for_row] in Hend, Hkeys, Hfull |- *.
  apply Forall_cons in Hkeys as [Hk Hkeys]. apply Forall_cons in Hfull as [Hf Hfull].
  destruct (for_col_spec row columns [] Hk) as [(vs & -> & Hvs)|[_ Hlack]]; [|done].
  cbn [mbind result_bind app].
  destruct (IH (rows ++ ["(" +:+ Py.join ", " vs +:+ ")"]) Hend Hkeys Hfull)
    as (tuples & -> & Htuples).
  exists (tuple_text vs :: tuples). rewrite <- app_assoc. split; [done|].
  constructor; [|done]. by exists vs.
Qed.

Lemma for_row_lacking columns (g : gen csv.Row) rows :
  Forall (has_keys columns) (items g) →
  Exists (lacks_string columns) (items g) →
  for_row columns g rows = Raise NoneType_replace.
Proof.
  revert rows. induction g as [|e|row g IH]; intros rows Hkeys Hex;
    [by apply Exists_nil in Hex..|].
  cbn [items for_row] in Hkeys, Hex |- *. apply Forall_cons in Hkeys as [Hk Hkeys].
  destruct (for_col_spec row columns [] Hk) as [(vs & -> & Hvs)|[-> _]]; [|done].
  cbn [mbind result_bind app].
  apply Exists_cons in Hex as [Hlack|Hex]; [|by apply IH].
  by apply emitted_not_lacking in Hvs.
Qed.

(** What the row loop can raise: the exception that ends the reader, or the
    missing [replace] method of a [None] value. *)
Lemma for_row_raise columns (g : gen csv.Row) rows e :
  Forall (has_keys columns) (items g) →
  for_row columns g rows = Raise e →
  ending g = Some e ∨ (e = NoneType_replace ∧ Exists (lacks_string columns) (items g)).
Proof.
  revert rows. induction g as [|e'|row g IH]; intros rows Hkeys Hr; [done| |].
  { left. cbn in *. congruence. }
  cbn [items ending for_row] in Hkeys, Hr |- *. apply Forall_cons in Hkeys as [Hk Hkeys].
  destruct (for_col_spec row columns [] Hk) as [(vs & Hvs & _)|[Hvs Hlack]];
    rewrite Hvs in Hr; cbn [mbind result_bind app] in Hr.
  - destruct (IH _ Hkeys Hr) as [?|[? ?]]; [by left|]. right. split; [done|]. by right.
  - right. split; [congruence|]. by left.
Qed.

End loops.

(** ** What the DictReader yields *)

Section dictreader.

Lemma items_DictReader fieldnames (recs : gen (list string)) :
  items (csv.DictReader fieldnames recs) = csv.make_row fieldnames <$> data_rows recs.
Proof.
  unfold data_rows. induction recs as [|e|rec recs IH]; [done..|].
  destruct rec as [|f rec]; cbn [csv.DictReader items].
  - by rewrite filter_cons_False by (by intros ?).
  - rewrite filter_cons_True by done. cbn. by rewrite IH.
Qed.

Lemma ending_DictReader fieldnames (recs : gen (list string)) :
  ending (csv.DictReader fieldnames recs) = ending recs.
Proof. induction recs as [|e|[|f rec] recs IH]; done. Qed.

Lemma has_keys_DictReader fieldnames (recs : gen (list string)) :
  Forall (has_keys fieldnames) (items (csv.DictReader fieldnames recs)).
Proof.
  rewrite items_DictReader. apply Forall_fmap, Forall_forall.
  intros rec _ col Hcol. by apply make_row_lookup_is_Some.
Qed.

End dictreader.

(** ** What the reader can raise *)

Section reader_errors.
Variable dialect : csv.Dialect.

Lemma parse_add_char_raise self c e :
  csv.parse_add_char self c = Raise e → is_csv_Error e.
Proof.
  unfold csv.parse_add_char. case_match; intros [= <-]. by eexists.
Qed.

Lemma fmap_parse_add_char_raise (f : csv.ReaderObj → csv.ReaderObj) self c e :
  f <$> csv.parse_add_char self c = Raise e → is_csv_Error e.
Proof.
  destruct (csv.parse_add_char self c) as [self'|e'] eqn:Hadd; [done|].
  intros [= <-]. by eapply parse_add_char_raise.
Qed.

Lemma parse_process_char_raise self c e :
  csv.parse_process_char dialect self c = Raise e → is_csv_Error e.
Proof.
  unfold csv.parse_process_char, csv.start_field, csv.in_field.
  intros Hr.
  repeat (case_match; try done);
    try (by eapply parse_add_char_raise);
    try (by eapply fmap_parse_add_char_raise);
    injection Hr as <-; by eexists.
Qed.

Lemma parse_line_raise line self e :
  csv.parse_line dialect self line = Raise e → is_csv_Error e.
Proof.
  revert self. induction line as [|c line IH]; intros self; cbn [csv.parse_line].
  - apply parse_process_char_raise.
  - destruct (csv.parse_process_char dialect self (Some c)) as [self'|e'] eqn:Hc.
    + apply IH.
    + intros [= <-]. by eapply parse_process_char_raise.
Qed.

Lemma reader_from_ending lines self e :
  ending (csv.reader_from dialect self lines) = Some e → is_csv_Error e.
Proof.
  revert self. induction lines as [|line lines IH]; intros self; cbn [csv.reader_from].
  - repeat case_match; cbn; try done. intros [= <-]. by eexists.
  - destruct (csv.parse_line dialect self line) as [self'|e'] eqn:Hl.
    + case_match; cbn [ending]; apply IH.
    + intros [= <-]. by eapply parse_line_raise.
Qed.

End reader_errors.

(** ** The reader on the lines of a file *)

Section input_lines.

#[local] Arguments csv.is_crnl : simpl never.

Lemma length_string_app (s1 s2 : string) :
  String.length (s1 +:+ s2) = String.length s1 + String.length s2.
Proof.
  induction s1 as [|c s1 IH]; [done|].
  change (S (String.length (s1 +:+ s2)) = S (String.length s1 + String.length s2)).
  by rewrite IH.
Qed.

Lemma all_crnl_at_end l : all_crnl l → crnl_at_end l.
Proof.
  induction l as [|c l IH]; [done|]. cbn.
  intros [Hc Hl]%andb_prop_elim. by destruct (csv.is_crnl c).
Qed.

Lemma no_crnl_app_at_end body term :
  no_crnl body → all_crnl term → crnl_at_end (body +:+ term).
Proof.
  intros Hbody Hterm. induction body as [|c body IH].
  - by apply all_crnl_at_end.
  - cbn in Hbody. apply andb_prop_elim in Hbody as [Hc Hbody].
    change (Is_true (if csv.is_crnl c then all_crnl (body +:+ term)
                     else crnl_at_end (body +:+ term))).
    destruct (csv.is_crnl c); [done|]. by apply IH.
Qed.

Lemma no_crnl_snoc body c :
  no_crnl body → csv.is_crnl c = false → no_crnl (body +:+ String c "").
Proof.
  intros Hbody Hc. induction body as [|c' body IH].
  - change (Is_true (negb (csv.is_crnl c) && true)). by rewrite Hc.
  - cbn in Hbody. apply andb_prop_elim in Hbody as [Hc' Hbody].
    change (Is_true (negb (csv.is_crnl c') && no_crnl (body +:+ String c ""))).
    apply andb_prop_intro. split; [done|]. by apply IH.
Qed.

Lemma no_crnl_at_end body : no_crnl body → crnl_at_end body.
Proof.
  induction body as [|c body IH]; [done|]. cbn.
  intros [Hc Hbody]%andb_prop_elim. destruct (csv.is_crnl c); [done|]. by apply IH.
Qed.

(** The lines of a file opened with [newline=''] carry CR and LF only as
    their terminator, and together they are the text of the file. *)
Lemma readlines_from_spec (n : nat) : ∀ s cur,
  String.length s ≤ n → no_crnl cur →
  Forall (λ l, crnl_at_end l) (Py.readlines_from cur s)
  ∧ total_length (Py.readlines_from cur s) = String.length cur + String.length s.
Proof.
  unfold total_length.
  induction n as [|n IH]; intros s cur Hlen Hcur.
  { destruct s; [|cbn in Hlen; lia]. cbn. destruct cur; cbn; [done|].
    split; [|lia]. constructor; [|done]. by apply no_crnl_at_end. }
  destruct s as [|c s].
  { cbn. destruct cur; cbn; [done|].
    split; [|lia]. constructor; [|done]. by apply no_crnl_at_end. }
  cbn in Hlen. cbn [Py.readlines_from].
  destruct (Ascii.eqb_spec c Py.LF) as [->|HLF].
  { destruct (IH s "") as [HF Hsum]; [lia|done|].
    split; [constructor; [by apply no_crnl_app_at_end|done]|].
    cbn. rewrite Hsum, length_string_app. cbn. lia. }
  destruct (Ascii.eqb_spec c Py.CR) as [->|HCR].
  { destruct s as [|c' s].
    - split; [constructor; [by apply no_crnl_app_at_end|done]|].
      cbn. rewrite length_string_app. cbn. lia.
    - destruct (Ascii.eqb_spec c' Py.LF) as [->|HLF'].
      + cbn in Hlen. destruct (IH s "") as [HF Hsum]; [lia|done|].
        split; [constructor; [by apply no_crnl_app_at_end|done]|].
        cbn. rewrite Hsum, length_string_app. cbn. lia.
      + destruct (IH (String c' s) "") as [HF Hsum]; [lia|done|].
        split; [constructor; [by apply no_crnl_app_at_end|done]|].
        cbn [fmap list_fmap sum_list sum_list_with].
        change (String.length (cur +:+ String Py.CR "") + sum_list (String.length <$> Py.readlines_from "" (String c' s)) = String.length cur + S (String.length (String c' s))).
        rewrite Hsum, length_string_app. cbn. lia. }
  destruct (IH s (cur +:+ String c "")) as [HF Hsum]; [lia| |].
  { apply no_crnl_snoc; [done|]. unfold csv.is_crnl.
    destruct (Ascii.eqb_spec c Py.LF); [done|]. by destruct (Ascii.eqb_spec c Py.CR). }
  split; [done|]. rewrite Hsum, length_string_app. cbn. lia.
Qed.

End input_lines.

Section reader_on_lines.

#[local] Arguments csv.is_crnl : simpl never.

Lemma parse_add_char_spec self c :
  match csv.parse_add_char self c with
  | Ok self' =>
      csv.state self' = csv.state self
      ∧ String.length (csv.field self') = String.length (csv.field self) + 1
  | Raise e =>
      e = field_too_large
      ∧ N.to_nat csv.field_limit ≤ String.length (csv.field self)
  end.
Proof.
  unfold csv.parse_add_char.
  destruct (N.leb_spec csv.field_limit (N.of_nat (String.length (csv.field self)))).
  - split; [done|]. lia.
  - cbn. split; [done|]. apply length_string_app.
Qed.

Lemma parse_process_char_spec self c :
  escape_free (csv.state self) →
  match csv.parse_process_char csv.excel_semicolon self c with
  | Ok self' =>
      escape_free (csv.state self')
      ∧ String.length (csv.field self') ≤ String.length (csv.field self) + chars c
      ∧ (csv.state self' = csv.EAT_CRNL → ∃ ch, c = Some ch ∧ csv.is_crnl ch = true)
      ∧ (c = None → csv.state self' ≠ csv.EAT_CRNL)
  | Raise e =>
      (e = field_too_large ∧ c ≠ None
       ∧ N.to_nat csv.field_limit ≤ String.length (csv.field self))
      ∨ (csv.state self = csv.EAT_CRNL ∧ ∃ ch, c = Some ch ∧ csv.is_crnl ch = false)
  end.
Proof.
  destruct self as [st fs f]. intros Hfree.
  unfold csv.parse_process_char, csv.start_field, csv.in_field. cbn.
  destruct st; try done; destruct c as [ch|]; cbn;
    repeat (match goal with
            | |- context [csv.is_crnl ?c] => destruct (csv.is_crnl c) eqn:?
            | |- context [Ascii.eqb ?a ?b] => destruct (Ascii.eqb a b) eqn:?
            | |- context [csv.parse_add_char ?s ?c] =>
                let H := fresh in
                pose proof (parse_add_char_spec s c) as H;
                destruct (csv.parse_add_char s c); cbn in H |- *
            end; cbn);
    try match goal with H : _ ∧ _ |- _ => destruct H as [? ?] end;
    first
      [ right; split; [done|]; by eauto
      | left; split_and!; [done | done | lia]
      | split_and!;
          first [ done | lia | by eauto | congruence
                | by match goal with H : csv.state _ = _ |- _ => rewrite H end ] ].
Qed.

Lemma parse_line_spec l : ∀ self,
  escape_free (csv.state self) →
  (csv.state self = csv.EAT_CRNL → all_crnl l) →
  crnl_at_end l →
  match csv.parse_line csv.excel_semicolon self l with
  | Ok self' =>
      escape_free (csv.state self')
      ∧ csv.state self' ≠ csv.EAT_CRNL
      ∧ String.length (csv.field self') ≤ String.length (csv.field self) + String.length l
  | Raise e =>
      e = field_too_large
      ∧ N.to_nat csv.field_limit < String.length (csv.field self) + String.length l
  end.
Proof.
  induction l as [|c l IH]; intros self Hfree Heat Hend; cbn [csv.parse_line].
  - pose proof (parse_process_char_spec self None Hfree) as Hstep.
    destruct (csv.parse_process_char csv.excel_semicolon self None) as [self'|e].
    + destruct Hstep as (? & ? & _ & Hne). cbn in *. split_and!; [done|by apply Hne|lia].
    + by destruct Hstep as [(_ & ? & _)|(_ & ? & ? & _)].
  - pose proof (parse_process_char_spec self (Some c) Hfree) as Hstep.
    destruct (csv.parse_process_char csv.excel_semicolon self (Some c)) as [self1|e];
      cbn [mbind result_bind].
    + destruct Hstep as (Hfree1 & Hlen1 & Heat1 & _). cbn in Hend, Hlen1.
      assert (crnl_at_end l) as Hend'.
      { destruct (csv.is_crnl c); [by apply all_crnl_at_end | done]. }
      assert (csv.state self1 = csv.EAT_CRNL → all_crnl l) as Heat'.
      { intros (ch & [= <-] & Hch)%Heat1. by rewrite Hch in Hend. }
      specialize (IH self1 Hfree1 Heat' Hend').
      destruct (csv.parse_line csv.excel_semicolon self1 l) as [self'|e].
      * destruct IH as (? & ? & ?). cbn. split_and!; [done..|lia].
      * destruct IH as [-> ?]. cbn. split; [done|lia].
    + destruct Hstep as [(-> & _ & ?)|(Hst & ch & [= <-] & Hch)].
      * cbn. split; [done|lia].
      * apply Heat in Hst. cbn in Hst. by rewrite Hch in Hst.
Qed.

Lemma reader_from_spec lines : ∀ self,
  escape_free (csv.state self) → csv.state self ≠ csv.EAT_CRNL →
  Forall (λ l, crnl_at_end l) lines →
  match ending (csv.reader_from csv.excel_semicolon self lines) with
  | None => True
  | Some e =>
      e = field_too_large
      ∧ N.to_nat csv.field_limit < String.length (csv.field self) + total_length lines
  end.
Proof.
  unfold total_length.
  induction lines as [|line lines IH]; intros self Hfree Hne Hlines;
    cbn [csv.reader_from].
  { cbn. by repeat case_match. }
  apply Forall_cons in Hlines as [Hline Hlines].
  assert (csv.state self = csv.EAT_CRNL → all_crnl line) as Heat by done.
  pose proof (parse_line_spec line self Hfree Heat Hline) as Hstep.
  destruct (csv.parse_line csv.excel_semicolon self line) as [self'|e].
  - destruct Hstep as (Hfree' & Hne' & Hlen').
    case_bool_decide as Hstart; cbn [ending].
    + specialize (IH csv.parse_reset I ltac:(done) Hlines).
      destruct (ending _) as [e|]; [|done].
      destruct IH as [-> Hlim]. split; [done|]. cbn in Hlim |- *. lia.
    + specialize (IH self' Hfree' Hne' Hlines).
      destruct (ending _) as [e|]; [|done].
      destruct IH as [-> Hlim]. split; [done|]. cbn. lia.
  - destruct Hstep as [-> Hlim]. cbn. split; [done|]. lia.
Qed.

(** On the lines of a file the reader raises nothing but the field-limit
    error, and not even that when the whole text is within the limit. *)
Lemma records_raise_field_limit csv_text e :
  ending (records csv_text) = Some e →
  e = field_too_large ∧ N.to_nat csv.field_limit < String.length csv_text.
Proof.
  unfold records, csv.reader, Py.readlines. intros Hend.
  destruct (readlines_from_spec (String.length csv_text) csv_text "") as [Hlines Hsum];
    [done..|].
  pose proof (reader_from_spec _ csv.parse_reset I ltac:(done) Hlines) as Hspec.
  rewrite Hend, Hsum in Hspec. exact Hspec.
Qed.

Lemma records_within_limit csv_text :
  String.length csv_text ≤ N.to_nat csv.field_limit →
  ending (records csv_text) = None.
Proof.
  intros Hlen. destruct (ending (records csv_text)) as [e|] eqn:Hend; [|done].
  apply records_raise_field_limit in Hend as [_ ?]. lia.
Qed.

End reader_on_lines.

(** ** The body of the with statement *)

Section body.

Lemma string_app_assoc (s1 s2 s3 : string) :
  (s1 +:+ s2) +:+ s3 = s1 +:+ s2 +:+ s3.
Proof.
  induction s1 as [|c s1 IH]; [done|].
  change (String c ((s1 +:+ s2) +:+ s3) = String c (s1 +:+ s2 +:+ s3)).
  by rewrite IH.
Qed.

Lemma with_body_headerless table_name csv_text :
  headerless csv_text →
  with_body table_name csv_text "" = (Raise (ValueError "CSV file has no headers"), "").
Proof.
  unfold headerless, records, with_body, mbind, Writer_bind, lift.
  by intros [->|[recs ->]].
Qed.

Lemma with_body_header table_name csv_text columns recs :
  records csv_text = Yield columns recs → columns ≠ [] →
  with_body table_name csv_text "" =
    match for_row columns (csv.DictReader columns recs) [] with
    | Ok rows => (Ok (), statement table_name columns rows)
    | Raise e => (Raise e, insert_line table_name columns)
    end.
Proof.
  unfold records, with_body, mbind, Writer_bind, lift, write. intros -> Hne.
  cbn [csv.fieldnames fst snd]. destruct columns as [|col columns]; [done|].
  destruct (for_row _ _ _) as [rows|e]; [|done].
  unfold statement. f_equal. rewrite string_app_assoc. reflexivity.
Qed.

Lemma records_ending csv_text e :
  ending (records csv_text) = Some e → is_csv_Error e.
Proof. apply reader_from_ending. Qed.

End body.

(** ** Running the converter *)

Section run.

(** With distinct paths the routine runs its body on the stored input text,
    leaves what the body wrote at the output path and prints one line. *)
Lemma csv_to_sql_insert_run csv_file_path output_file_path table_name w csv_text :
  files w !! csv_file_path = Some csv_text →
  csv_file_path ≠ output_file_path →
  csv_to_sql_insert csv_file_path output_file_path table_name w =
    let '(r, written) := with_body table_name csv_text "" in
    {| files := <[output_file_path := written]> (files w);
       stdout := stdout w ++ [report csv_file_path output_file_path r] |}.
Proof.
  intros Hin Hne. unfold csv_to_sql_insert, try_block. rewrite Hin.
  cbv zeta. unfold open_w, close_w. cbn [files stdout].
  rewrite lookup_insert_ne by done. rewrite Hin. cbn [default].
  unfold print, id.
  destruct (with_body table_name csv_text "") as [[[]|e] written];
    [|destruct e]; cbn [files stdout report is_FileNotFoundError];
    by rewrite insert_insert_eq.
Qed.

(** With the same path for input and output the input is truncated before
    its header is read. *)
Lemma csv_to_sql_insert_alias path table_name w :
  is_Some (files w !! path) →
  csv_to_sql_insert path path table_name w =
    {| files := <[path := ""]> (files w);
       stdout := stdout w ++ [error_line (ValueError "CSV file has no headers")] |}.
Proof.
  intros [csv_text Hin]. unfold csv_to_sql_insert, try_block. rewrite Hin.
  cbv zeta. unfold open_w, close_w. cbn [files stdout].
  rewrite lookup_insert_eq. cbn [default]. unfold id.
  rewrite with_body_headerless by (by left).
  unfold print; cbn. by rewrite insert_insert_eq.
Qed.

Lemma csv_to_sql_insert_missing csv_file_path output_file_path table_name w :
  files w !! csv_file_path = None →
  csv_to_sql_insert csv_file_path output_file_path table_name w =
    print (not_found_line csv_file_path) w.
Proof. intros Hin. unfold csv_to_sql_insert, try_block. by rewrite Hin. Qed.

End run.

Section outcomes.

Lemma for_col_Ok_inv (row : csv.Row) (columns values out : list string) :
  for_col row columns values = Ok out →
  ∃ vs, out = values ++ vs ∧ Forall2 (emitted row) columns vs.
Proof.
  revert values. induction columns as [|col columns IH]; intros values; cbn [for_col].
  { intros [= <-]. exists []. by rewrite app_nil_r. }
  unfold csv.getitem. destruct (csv.named row !! col) as [v|] eqn:Hv; [|done].
  cbn [mbind result_bind]. destruct (format_value col v) as [s|e] eqn:Hs; [|done].
  intros (vs & -> & Hvs)%IH. exists (s :: vs). rewrite <- app_assoc.
  split; [done|]. constructor; [by exists v | done].
Qed.

(** The body raises nothing but [ValueError], [csv.Error] and
    [AttributeError]. *)
Lemma with_body_raise table_name csv_text e written :
  with_body table_name csv_text "" = (Raise e, written) →
  e = ValueError "CSV file has no headers" ∨ is_csv_Error e ∨ e = NoneType_replace.
Proof.
  destruct (records csv_text) as [|e'|columns recs] eqn:Hrec.
  - rewrite with_body_headerless by (by left). intros [= <- _]. by left.
  - pose proof (records_ending csv_text e') as He. rewrite Hrec in He.
    unfold records in Hrec.
    unfold with_body, mbind, Writer_bind, lift. rewrite Hrec. cbn.
    intros [= <- _]. right. left. by apply He.
  - destruct columns as [|col columns].
    { rewrite with_body_headerless by (right; by eexists). intros [= <- _]. by left. }
    rewrite (with_body_header _ _ _ _ Hrec) by done.
    destruct (for_row _ _ _) as [rows|e'] eqn:Hrows; [done|]. intros [= <- _].
    apply for_row_raise in Hrows as [Hend|[-> _]]; [|by right; right|].
    + rewrite ending_DictReader in Hend. right. left.
      apply (records_ending csv_text). rewrite Hrec. exact Hend.
    + apply has_keys_DictReader.
Qed.

Lemma with_body_raise_report table_name csv_text e written inp out :
  with_body table_name csv_text "" = (Raise e, written) →
  report inp out (Raise e) = error_line e.
Proof.
  intros [->|[[msg ->]| ->]]%with_body_raise; done.
Qed.

End outcomes.

(** * The properties of the specification *)

(** ** C1: the worked example *)

(** C1. For the input made of the header line
    [id;worker_id;user_id;status;deadline;address;creation_date;rate] and the
    single data row [1;7;3;1;2024-01-01;O'Hara St;2023-12-01;9.5], and the
    table name [orders], the converter leaves exactly the statement of the
    specification in the output file and prints the success line.  The two
    lines may be separated by LF, CR LF or CR, and the last line may or may
    not be terminated. *)
Theorem C1_example_statement (w : World) (inp out eol last : string) :
  files w !! inp = Some (example_header +:+ eol +:+ example_row +:+ last) →
  inp ≠ out →
  eol ∈ [Py.newline; CRLF; String Py.CR ""] →
  last ∈ [""; Py.newline; CRLF; String Py.CR ""] →
  files (csv_to_sql_insert inp out "orders" w) !! out = Some example_statement
  ∧ stdout (csv_to_sql_insert inp out "orders" w) = stdout w ++ [success_line out].
Proof.
  intros Hin Hne Heol Hlast.
  rewrite (csv_to_sql_insert_run _ _ _ _ _ Hin Hne).
  assert (with_body "orders" (example_header +:+ eol +:+ example_row +:+ last) ""
          = (Ok (), example_statement)) as ->.
  { set_unfold. destruct_or!; subst; by vm_compute. }
  cbn. by rewrite lookup_insert_eq.
Qed.

Lemma C1_example_statement_witness :
  files (csv_to_sql_insert "orders_data.csv" "orders_data.sql" "orders" example_world)
    !! "orders_data.sql" = Some example_statement
  ∧ stdout (csv_to_sql_insert "orders_data.csv" "orders_data.sql" "orders" example_world)
    = stdout example_world ++ [success_line "orders_data.sql"].
Proof.
  apply (C1_example_statement example_world _ _ Py.newline "").
  - reflexivity.
  - apply (bool_decide_unpack _). vm_compute. exact I.
  - apply (bool_decide_unpack _). vm_compute. exact I.
  - apply (bool_decide_unpack _). vm_compute. exact I.
Defined.

(** ** C2 and C3: how one value is written *)

(** C2. In the tuple of a row, the value of a column that is not named
    [status] or [rate] is the raw value with every single quote doubled,
    between one opening and one closing single quote: the text between the
    outer quotes has twice the single quotes of the raw value, and reading
    each doubled quote as one gives the raw value back. *)
Theorem C2_string_value_quoted (row : csv.Row) (columns values : list string)
    (i : nat) (col v : string) :
  for_col row columns [] = Ok values →
  columns !! i = Some col →
  col ∉ NumericColumns →
  csv.named row !! col = Some (Some v) →
  ∃ escaped,
    values !! i = Some ("'" +:+ escaped +:+ "'")
    ∧ escaped = double_quotes v
    ∧ occurrences quote escaped = 2 * occurrences quote v
    ∧ undouble escaped = v.
Proof.
  intros (vs & -> & Hvs)%for_col_Ok_inv Hcol Hnum Hv.
  destruct (Forall2_lookup_l _ _ _ _ _ Hvs Hcol) as (s & Hs & v' & Hv' & Hfmt).
  pose proof (eq_trans (eq_sym Hv') Hv) as [= ->].
  rewrite format_value_string in Hfmt by done. injection Hfmt as <-.
  exists (double_quotes v). split_and!; [done|done|..].
  - apply occurrences_double_quotes.
  - apply undouble_double_quotes.
Qed.

Lemma C2_string_value_quoted_witness :
  ∃ escaped,
    ["'1'"; "'O''Hara St'"; "it's n/a"] !! 1 = Some ("'" +:+ escaped +:+ "'")
    ∧ escaped = double_quotes "O'Hara St"
    ∧ occurrences quote escaped = 2 * occurrences quote "O'Hara St"
    ∧ undouble escaped = "O'Hara St".
Proof.
  apply (C2_string_value_quoted (csv.make_row example_columns example_record)
           example_columns _ 1 "address" "O'Hara St").
  - vm_compute. reflexivity.
  - reflexivity.
  - apply (bool_decide_unpack _). vm_compute. exact I.
  - vm_compute. reflexivity.
Defined.

(** C3. In the tuple of a row, the value of a column named [status] or
    [rate] is the raw value itself, without quotes around it and with its
    own quotes left alone, whatever the value looks like. *)
Theorem C3_numeric_value_raw (row : csv.Row) (columns values : list string)
    (i : nat) (col v : string) :
  for_col row columns [] = Ok values →
  columns !! i = Some col →
  col ∈ NumericColumns →
  csv.named row !! col = Some (Some v) →
  values !! i = Some v ∧ format_value col (Some v) = Ok v.
Proof.
  intros (vs & -> & Hvs)%for_col_Ok_inv Hcol Hnum Hv.
  destruct (Forall2_lookup_l _ _ _ _ _ Hvs Hcol) as (s & Hs & v' & Hv' & Hfmt).
  pose proof (eq_trans (eq_sym Hv') Hv) as [= ->].
  rewrite format_value_numeric in Hfmt by done. injection Hfmt as <-.
  split; [done|]. by rewrite format_value_numeric.
Qed.

Lemma C3_numeric_value_raw_witness :
  ["'1'"; "'O''Hara St'"; "it's n/a"] !! 2 = Some "it's n/a"
  ∧ format_value "status" (Some "it's n/a") = Ok "it's n/a".
Proof.
  apply (C3_numeric_value_raw (csv.make_row example_columns example_record)
           example_columns _ 2 "status" "it's n/a").
  - vm_compute. reflexivity.
  - reflexivity.
  - apply (bool_decide_unpack _). vm_compute. exact I.
  - vm_compute. reflexivity.
Defined.

(** ** C4 and C5: the statement written for a well-formed input *)

Section well_formed.

Lemma full_row_not_lacking (columns rec : list string) :
  length columns ≤ length rec → ¬ lacks_string columns (csv.make_row columns rec).
Proof.
  intros Hlen (col & Hin & _ & Hnone).
  destruct (make_row_lookup_full columns rec col Hlen Hin) as (v & _ & Hv).
  pose proof (eq_trans (eq_sym Hv) Hnone). done.
Qed.

Lemma well_formed_run w inp out table_name csv_text columns recs :
  files w !! inp = Some csv_text → inp ≠ out →
  records csv_text = Yield columns recs → columns ≠ [] →
  ending recs = None → rows_full columns recs →
  ∃ tuples,
    csv_to_sql_insert inp out table_name w =
      {| files := <[out := statement table_name columns tuples]> (files w);
         stdout := stdout w ++ [success_line out] |}
    ∧ Forall2 (λ rec tu, tuple_of columns (csv.make_row columns rec) tu)
        (data_rows recs) tuples.
Proof.
  intros Hin Hne Hrec Hcols Hend Hfull.
  destruct (for_row_ok columns (csv.DictReader columns recs) []) as (tuples & Hrows & Htuples).
  - by rewrite ending_DictReader.
  - apply has_keys_DictReader.
  - rewrite items_DictReader. apply Forall_fmap.
    eapply Forall_impl; [exact Hfull|]. intros rec Hlen. by apply full_row_not_lacking.
  - exists tuples. split.
    + rewrite (csv_to_sql_insert_run _ _ _ _ _ Hin Hne).
      rewrite (with_body_header _ _ _ _ Hrec Hcols), Hrows. done.
    + rewrite items_DictReader, Forall2_fmap_l in Htuples. exact Htuples.
Qed.



(** C5. For a well-formed input the INSERT line lists the column names in
    the order of the header, separated by a comma and a space, and the tuple
    of every data row holds, in that same order, the value the row has under
    each column name.  When the names of the header are distinct, the value
    at a position of the tuple comes from the field at that position of the
    data row. *)
Theorem C5_header_order (w : World) (inp out table_name csv_text : string)
    (columns : list string) (recs : gen (list string)) :
  files w !! inp = Some csv_text → inp ≠ out →
  records csv_text = Yield columns recs → columns ≠ [] →
  ending recs = None → rows_full columns recs →
  ∃ tuples,
    files (csv_to_sql_insert inp out table_name w) !! out
      = Some (("INSERT INTO " +:+ table_name +:+ " (" +:+ Py.join ", " columns
               +:+ ") VALUES" +:+ Py.newline)
              +:+ Py.join ("," +:+ Py.newline) tuples +:+ ";")
    ∧ Forall2 (λ rec tu,
         ∃ values, tu = "(" +:+ Py.join ", " values +:+ ")"
           ∧ Forall2 (emitted (csv.make_row columns rec)) columns values
           ∧ (NoDup columns → positional columns rec values))
        (data_rows recs) tuples.
Proof.
  intros Hin Hne Hrec Hcols Hend Hfull.
  destruct (well_formed_run w inp out table_name csv_text columns recs)
    as (tuples & -> & Htuples); try done.
  exists tuples. cbn [files]. split; [by rewrite lookup_insert_eq|].
  apply Forall2_same_length_lookup. split; [by eapply Forall2_length|].
  intros i rec tu Hrec_i Htu_i.
  destruct (Forall2_lookup_lr _ _ _ _ _ _ Htuples Hrec_i Htu_i) as (values & -> & Hvals).
  exists values. split_and!; [done..|].
  intros Hnd k col Hk.
  destruct (Forall2_lookup_l _ _ _ _ _ Hvals Hk) as (s & Hs & v0 & Hv0 & Hfmt).
  assert (length columns ≤ length rec) as Hlen.
  { unfold rows_full in Hfull. rewrite Forall_lookup in Hfull. by eapply Hfull. }
  destruct (lookup_lt_is_Some_2 rec k) as [v Hv].
  { apply lookup_lt_Some in Hk. lia. }
  pose proof (make_row_lookup_position columns rec k col v Hnd Hk Hv) as Hpos.
  pose proof (eq_trans (eq_sym Hv0) Hpos) as [= ->].
  by exists v, s.
Qed.

Lemma C5_header_order_witness :
  ∃ tuples,
    files (csv_to_sql_insert "in.csv" "out.sql" "t" two_rows_world) !! "out.sql"
      = Some (("INSERT INTO " +:+ "t" +:+ " (" +:+ Py.join ", " ["id"; "address"; "status"]
               +:+ ") VALUES" +:+ Py.newline)
              +:+ Py.join ("," +:+ Py.newline) tuples +:+ ";")
    ∧ Forall2 (λ rec tu,
         ∃ values, tu = "(" +:+ Py.join ", " values +:+ ")"
           ∧ Forall2 (emitted (csv.make_row ["id"; "address"; "status"] rec))
               ["id"; "address"; "status"] values
           ∧ (NoDup ["id"; "address"; "status"] →
              positional ["id"; "address"; "status"] rec values))
        (data_rows two_rows_recs) tuples.
Proof.
  apply (C5_header_order two_rows_world "in.csv" "out.sql" "t" two_rows_text).
  - reflexivity.
  - apply (bool_decide_unpack _). vm_compute. exact I.
  - vm_compute. reflexivity.
  - apply (bool_decide_unpack _). vm_compute. exact I.
  - reflexivity.
  - apply (bool_decide_unpack _). vm_compute. exact I.
Defined.

End well_formed.

(** ** C6: an input without a header *)

Section no_header.

(** C6, as stated, fails on an empty input file: the output path did not
    exist before the run and holds an (empty) file after it. *)
Lemma C6_output_file_created :
  headerless ""
  ∧ files empty_input_world !! "out.sql" = None
  ∧ files (csv_to_sql_insert "empty.csv" "out.sql" "t" empty_input_world) !! "out.sql"
    ≠ None.
Proof.
  split_and!; [by left | done |].
  rewrite (csv_to_sql_insert_run _ _ _ _ "") by done.
  rewrite with_body_headerless by (by left). cbn. by rewrite lookup_insert_eq.
Qed.

(** C6, amended. For an input file without a header (an empty file, or one
    whose first line is blank) the converter prints the diagnostic
    [An error occurred: CSV file has no headers] and no success line, and
    writes no SQL text; the output path is nevertheless created, or
    truncated, and left as an empty file, and no other file changes. *)
Theorem C6_no_header_empty_output (w : World) (inp out table_name csv_text : string) :
  files w !! inp = Some csv_text →
  headerless csv_text →
  files (csv_to_sql_insert inp out table_name w) !! out = Some ""
  ∧ stdout (csv_to_sql_insert inp out table_name w)
    = stdout w ++ ["An error occurred: CSV file has no headers"]
  ∧ ∀ path, path ≠ out →
      files (csv_to_sql_insert inp out table_name w) !! path = files w !! path.
Proof.
  intros Hin Hno.
  assert (csv_to_sql_insert inp out table_name w =
          {| files := <[out := ""]> (files w);
             stdout := stdout w ++ ["An error occurred: CSV file has no headers"] |}) as ->.
  { destruct (decide (inp = out)) as [<-|Hne].
    - by rewrite csv_to_sql_insert_alias by (by eexists).
    - rewrite (csv_to_sql_insert_run _ _ _ _ _ Hin Hne).
      by rewrite with_body_headerless. }
  cbn [files stdout]. split_and!; [by rewrite lookup_insert_eq | done |].
  intros path Hpath. by rewrite lookup_insert_ne.
Qed.

Lemma C6_no_header_empty_output_witness :
  files (csv_to_sql_insert "empty.csv" "out.sql" "t" empty_input_world) !! "out.sql"
    = Some ""
  ∧ stdout (csv_to_sql_insert "empty.csv" "out.sql" "t" empty_input_world)
    = stdout empty_input_world ++ ["An error occurred: CSV file has no headers"]
  ∧ ∀ path, path ≠ "out.sql" →
      files (csv_to_sql_insert "empty.csv" "out.sql" "t" empty_input_world) !! path
      = files empty_input_world !! path.
Proof.
  apply (C6_no_header_empty_output empty_input_world "empty.csv" "out.sql" "t" "").
  - reflexivity.
  - left. vm_compute. reflexivity.
Defined.

End no_header.

(** ** C7: a data row that is too short *)

Section short_rows.

(** C7, as stated, fails when the missing column is [status]: the row [1]
    has no value for it, and the converter writes [None] in its place and
    reports success. *)
Lemma C7_missing_status_succeeds :
  records short_status_text = Yield ["id"; "status"] (Yield ["1"] Stop)
  ∧ "status" ∈ drop (length ["1"]) ["id"; "status"]
  ∧ files (csv_to_sql_insert "in.csv" "out.sql" "t" short_status_world) !! "out.sql"
    = Some ("INSERT INTO t (id, status) VALUES" +:+ Py.newline +:+ "('1', None);")
  ∧ stdout (csv_to_sql_insert "in.csv" "out.sql" "t" short_status_world)
    = [success_line "out.sql"].
Proof.
  split_and!; [by vm_compute | by left | |].
  - rewrite (csv_to_sql_insert_run _ _ _ _ short_status_text) by done.
    assert (with_body "t" short_status_text ""
            = (Ok (), "INSERT INTO t (id, status) VALUES" +:+ Py.newline
                      +:+ "('1', None);")) as -> by by vm_compute.
    cbn. by rewrite lookup_insert_eq.
  - rewrite (csv_to_sql_insert_run _ _ _ _ short_status_text) by done.
    assert (with_body "t" short_status_text ""
            = (Ok (), "INSERT INTO t (id, status) VALUES" +:+ Py.newline
                      +:+ "('1', None);")) as -> by by vm_compute.
    done.
Qed.

(** C7, amended. When the header is parsed and some data row that the
    reader delivers lacks a value for a header column that is not named
    [status] or [rate], the conversion fails: the only line printed is the
    diagnostic of the failed [replace] on [None], which is not the success
    line, and the output file holds the INSERT line alone.  (A row behind a
    field longer than the limit of the csv module is not delivered.) *)
Theorem C7_short_row_fails (w : World) (inp out table_name csv_text : string)
    (columns : list string) (recs : gen (list string)) (rec : list string)
    (col : string) :
  files w !! inp = Some csv_text → inp ≠ out →
  records csv_text = Yield columns recs →
  rec ∈ data_rows recs →
  col ∈ drop (length rec) columns →
  col ∉ NumericColumns →
  stdout (csv_to_sql_insert inp out table_name w)
    = stdout w ++ ["An error occurred: 'NoneType' object has no attribute 'replace'"]
  ∧ success_line out ≠ "An error occurred: 'NoneType' object has no attribute 'replace'"
  ∧ files (csv_to_sql_insert inp out table_name w) !! out
    = Some (insert_line table_name columns).
Proof.
  intros Hin Hne Hrec Hrow Hcol Hnum.
  assert (col ∈ columns) as Hcol'.
  { rewrite <- (take_drop (length rec) columns). apply elem_of_app. by right. }
  assert (columns ≠ []) as Hcols by (intros ->; by apply elem_of_nil in Hcol').
  rewrite (csv_to_sql_insert_run _ _ _ _ _ Hin Hne).
  rewrite (with_body_header _ _ _ _ Hrec Hcols).
  rewrite (for_row_lacking columns (csv.DictReader columns recs) []).
  - cbn. split_and!; [done| |by rewrite lookup_insert_eq].
    intros Heq. discriminate Heq.
  - apply has_keys_DictReader.
  - rewrite items_DictReader. apply Exists_exists.
    exists (csv.make_row columns rec). split; [by apply list_elem_of_fmap_2|].
    exists col. split_and!; [done..|]. by apply make_row_lookup_missing.
Qed.

Lemma C7_short_row_fails_witness :
  stdout (csv_to_sql_insert "in.csv" "out.sql" "t" short_name_world)
    = stdout short_name_world
      ++ ["An error occurred: 'NoneType' object has no attribute 'replace'"]
  ∧ success_line "out.sql"
    ≠ "An error occurred: 'NoneType' object has no attribute 'replace'"
  ∧ files (csv_to_sql_insert "in.csv" "out.sql" "t" short_name_world) !! "out.sql"
    = Some (insert_line "t" ["id"; "name"; "status"]).
Proof.
  apply (C7_short_row_fails short_name_world "in.csv" "out.sql" "t" short_name_text
           ["id"; "name"; "status"] (Yield ["1"; "Ann"; "1"] (Yield ["2"] Stop))
           ["2"] "name").
  - reflexivity.
  - apply (bool_decide_unpack _). vm_compute. exact I.
  - vm_compute. reflexivity.
  - apply (bool_decide_unpack _). vm_compute. exact I.
  - apply (bool_decide_unpack _). vm_compute. exact I.
  - apply (bool_decide_unpack _). vm_compute. exact I.
Defined.

(** The other half of the behaviour: a row that lacks only [status] or
    [rate] values is written with [None] in their place. *)
Lemma missing_numeric_value_written_as_None (fieldnames rec : list string) (col : string) :
  col ∈ drop (length rec) fieldnames → col ∈ NumericColumns →
  emitted (csv.make_row fieldnames rec) col "None".
Proof.
  intros Hcol Hnum. exists None. split.
  - by apply make_row_lookup_missing.
  - by rewrite format_value_numeric.
Qed.

End short_rows.

(** ** C8: a missing input file *)

Section missing_input.

(** C8. When nothing is stored at the input path, the routine prints
    [Error: File not found - <path>] and the entry point prints
    [Error: Input file '<path>' not found]; neither prints anything else,
    and neither touches the file system, so the output path is neither
    created nor modified. *)
Theorem C8_missing_input_untouched (w : World) (inp out table_name : string) :
  files w !! inp = None →
  (stdout (csv_to_sql_insert inp out table_name w)
     = stdout w ++ ["Error: File not found - " +:+ inp]
   ∧ files (csv_to_sql_insert inp out table_name w) = files w)
  ∧ (stdout (main inp out table_name w)
       = stdout w ++ ["Error: Input file '" +:+ inp +:+ "' not found"]
     ∧ files (main inp out table_name w) = files w).
Proof.
  intros Hin. split.
  - by rewrite csv_to_sql_insert_missing.
  - unfold main, os_path_exists. rewrite Hin.
    rewrite bool_decide_eq_false_2 by (by intros [? ?]). done.
Qed.

Lemma C8_missing_input_untouched_witness :
  (stdout (csv_to_sql_insert "nowhere.csv" "out.sql" "t" no_input_world)
     = stdout no_input_world ++ ["Error: File not found - " +:+ "nowhere.csv"]
   ∧ files (csv_to_sql_insert "nowhere.csv" "out.sql" "t" no_input_world)
     = files no_input_world)
  ∧ (stdout (main "nowhere.csv" "out.sql" "t" no_input_world)
       = stdout no_input_world ++ ["Error: Input file '" +:+ "nowhere.csv" +:+ "' not found"]
     ∧ files (main "nowhere.csv" "out.sql" "t" no_input_world) = files no_input_world).
Proof.
  apply (C8_missing_input_untouched no_input_world "nowhere.csv" "out.sql" "t").
  vm_compute. reflexivity.
Defined.

(** When the input exists the entry point is the routine. *)
Lemma main_existing_input (w : World) (inp out table_name : string) :
  is_Some (files w !! inp) →
  main inp out table_name w = csv_to_sql_insert inp out table_name w.
Proof.
  intros Hin. unfold main, os_path_exists. by rewrite bool_decide_eq_true_2.
Qed.

End missing_input.

(** ** C9: determinism *)

Section determinism.

Lemma csv_to_sql_insert_outcome (w : World) (inp out table_name csv_text : string) :
  files w !! inp = Some csv_text →
  ∃ written line,
    (written, line) =
      (if decide (inp = out)
       then ("", error_line (ValueError "CSV file has no headers"))
       else ((with_body table_name csv_text "").2,
             report inp out (with_body table_name csv_text "").1))
    ∧ csv_to_sql_insert inp out table_name w =
        {| files := <[out := written]> (files w); stdout := stdout w ++ [line] |}.
Proof.
  intros Hin. destruct (decide (inp = out)) as [<-|Hne].
  - do 2 eexists. split; [done|]. apply csv_to_sql_insert_alias. by eexists.
  - do 2 eexists. split; [done|].
    rewrite (csv_to_sql_insert_run _ _ _ _ _ Hin Hne).
    by destruct (with_body table_name csv_text "").
Qed.

(** C9. Two runs with the same paths and table name, in two worlds that
    store the same text at the input path, leave the same content at the
    output path and print the same line, whatever else the two worlds hold. *)
Theorem C9_deterministic (w1 w2 : World) (inp out table_name csv_text : string) :
  files w1 !! inp = Some csv_text →
  files w2 !! inp = Some csv_text →
  files (csv_to_sql_insert inp out table_name w1) !! out
    = files (csv_to_sql_insert inp out table_name w2) !! out
  ∧ printed w1 (csv_to_sql_insert inp out table_name w1)
    = printed w2 (csv_to_sql_insert inp out table_name w2).
Proof.
  intros H1 H2.
  destruct (csv_to_sql_insert_outcome w1 inp out table_name csv_text H1)
    as (written1 & line1 & Hpair1 & ->).
  destruct (csv_to_sql_insert_outcome w2 inp out table_name csv_text H2)
    as (written2 & line2 & Hpair2 & ->).
  rewrite <- Hpair2 in Hpair1. injection Hpair1 as -> ->.
  unfold printed. cbn [files stdout]. rewrite !lookup_insert_eq, !drop_app_length.
  done.
Qed.

Lemma C9_deterministic_witness :
  files (csv_to_sql_insert "orders_data.csv" "orders_data.sql" "orders" example_world)
    !! "orders_data.sql"
    = files (csv_to_sql_insert "orders_data.csv" "orders_data.sql" "orders" other_world)
        !! "orders_data.sql"
  ∧ printed example_world
      (csv_to_sql_insert "orders_data.csv" "orders_data.sql" "orders" example_world)
    = printed other_world
        (csv_to_sql_insert "orders_data.csv" "orders_data.sql" "orders" other_world).
Proof.
  apply (C9_deterministic example_world other_world "orders_data.csv" "orders_data.sql"
           "orders" (example_header +:+ Py.newline +:+ example_row)).
  - reflexivity.
  - vm_compute. reflexivity.
Defined.

(** Running the converter a second time changes nothing at the output
    path. *)
Lemma csv_to_sql_insert_twice (w : World) (inp out table_name : string) :
  is_Some (files w !! inp) →
  files (csv_to_sql_insert inp out table_name
           (csv_to_sql_insert inp out table_name w)) !! out
  = files (csv_to_sql_insert inp out table_name w) !! out.
Proof.
  intros [csv_text Hin].
  destruct (decide (inp = out)) as [<-|Hne].
  - rewrite (csv_to_sql_insert_alias inp table_name w) by (by eexists).
    rewrite csv_to_sql_insert_alias by (cbn; rewrite lookup_insert_eq; by eexists).
    cbn. by rewrite !lookup_insert_eq.
  - rewrite (csv_to_sql_insert_run inp out table_name w csv_text Hin Hne).
    destruct (with_body table_name csv_text "") as [r written] eqn:Hbody.
    rewrite (csv_to_sql_insert_run inp out table_name _ csv_text);
      [|by cbn; rewrite lookup_insert_ne|done].
    rewrite Hbody. cbn. by rewrite !lookup_insert_eq.
Qed.

End determinism.

(** ** C10: the output file after a failed run *)

Section not_atomic.

(** Whenever the input can be opened, the output path holds a file after
    the run. *)
Lemma output_file_exists (w : World) (inp out table_name : string) :
  is_Some (files w !! inp) →
  is_Some (files (csv_to_sql_insert inp out table_name w) !! out).
Proof.
  intros [csv_text Hin].
  destruct (csv_to_sql_insert_outcome w inp out table_name csv_text Hin)
    as (written & line & _ & ->).
  cbn. rewrite lookup_insert_eq. by eexists.
Qed.

(** C10. The conversion is not atomic.  The output path is truncated when
    the files are opened and the INSERT line is written before the first
    data row is read, so when the header parses and the row loop then raises,
    the output file is left holding exactly the INSERT line, and the
    diagnostic for the exception is the only line printed. *)
Theorem C10_insert_line_left_behind (w : World) (inp out table_name csv_text : string)
    (columns : list string) (recs : gen (list string)) (e : exn) :
  files w !! inp = Some csv_text → inp ≠ out →
  records csv_text = Yield columns recs → columns ≠ [] →
  for_row columns (csv.DictReader columns recs) [] = Raise e →
  files (open_w out w) !! out = Some ""
  ∧ files (csv_to_sql_insert inp out table_name w) !! out
    = Some ("INSERT INTO " +:+ table_name +:+ " (" +:+ Py.join ", " columns
            +:+ ") VALUES" +:+ Py.newline)
  ∧ stdout (csv_to_sql_insert inp out table_name w)
    = stdout w ++ ["An error occurred: " +:+ Py.exn_str e].
Proof.
  intros Hin Hne Hrec Hcols Hrows.
  assert (with_body table_name csv_text "" = (Raise e, insert_line table_name columns))
    as Hbody by by rewrite (with_body_header _ _ _ _ Hrec Hcols), Hrows.
  rewrite (csv_to_sql_insert_run _ _ _ _ _ Hin Hne), Hbody.
  rewrite (with_body_raise_report _ _ _ _ inp out Hbody).
  cbn. by rewrite !lookup_insert_eq.
Qed.

Lemma C10_insert_line_left_behind_witness :
  files (open_w "out.sql" short_name_world) !! "out.sql" = Some ""
  ∧ files (csv_to_sql_insert "in.csv" "out.sql" "t" short_name_world) !! "out.sql"
    = Some ("INSERT INTO " +:+ "t" +:+ " (" +:+ Py.join ", " ["id"; "name"; "status"]
            +:+ ") VALUES" +:+ Py.newline)
  ∧ stdout (csv_to_sql_insert "in.csv" "out.sql" "t" short_name_world)
    = stdout short_name_world ++ ["An error occurred: " +:+ Py.exn_str NoneType_replace].
Proof.
  apply (C10_insert_line_left_behind short_name_world "in.csv" "out.sql" "t"
           short_name_text ["id"; "name"; "status"]
           (Yield ["1"; "Ann"; "1"] (Yield ["2"] Stop)) NoneType_replace).
  - reflexivity.
  - apply (bool_decide_unpack _). vm_compute. exact I.
  - vm_compute. reflexivity.
  - apply (bool_decide_unpack _). vm_compute. exact I.
  - vm_compute. reflexivity.
Defined.

End not_atomic.

(** * Further properties of the converter *)

(** ** More on rows and loops *)

Section more_rows.





Lemma for_col_named_ext (row row' : csv.Row) (columns values : list string) :
  csv.named row = csv.named row' →
  for_col row columns values = for_col row' columns values.
Proof.
  intros Heq. revert values. induction columns as [|col columns IH]; intros values; [done|].
  cbn [for_col]. unfold csv.getitem. rewrite Heq.
  destruct (csv.named row' !! col) as [v|]; [|done]. cbn [mbind result_bind].
  destruct (format_value col v) as [s|e]; [|done]. apply IH.
Qed.

End more_rows.

(** ** The outcomes of a run *)

Section more_outcomes.


Lemma ending_records_Yield csv_text columns recs :
  records csv_text = Yield columns recs → ending (records csv_text) = ending recs.
Proof. by intros ->. Qed.


Lemma for_row_DictReader_raise csv_text columns recs rows e :
  records csv_text = Yield columns recs →
  for_row columns (csv.DictReader columns recs) rows = Raise e →
  e = field_too_large ∨ e = NoneType_replace.
Proof.
  intros Hrec Hrows.
  apply for_row_raise in Hrows as [Hend|[-> _]]; [|by right|apply has_keys_DictReader].
  left. rewrite ending_DictReader in Hend.
  apply (records_raise_field_limit csv_text). by rewrite (ending_records_Yield _ _ _ Hrec).
Qed.

(** X1. Every run prints exactly one line, and no file other than the one
    at the output path is created, changed or removed. *)
Theorem run_prints_one_line_and_keeps_other_files (w : World)
    (inp out table_name : string) :
  ∃ line,
    stdout (csv_to_sql_insert inp out table_name w) = stdout w ++ [line]
    ∧ ∀ path, path ≠ out →
        files (csv_to_sql_insert inp out table_name w) !! path = files w !! path.
Proof.
  destruct (files w !! inp) as [csv_text|] eqn:Hin.
  - destruct (csv_to_sql_insert_outcome w inp out table_name csv_text Hin)
      as (written & line & _ & ->).
    exists line. cbn [files stdout]. split; [done|].
    intros path Hpath. by rewrite lookup_insert_ne.
  - rewrite csv_to_sql_insert_missing by done.
    by exists (not_found_line inp).
Qed.




(** X4. When the output path is the input path, the input is lost: the file
    is truncated before its header is read, so it is left empty and the run
    reports a missing header, whatever the file held. *)
Theorem same_path_destroys_input (w : World) (path table_name csv_text : string) :
  files w !! path = Some csv_text →
  files (csv_to_sql_insert path path table_name w) !! path = Some ""
  ∧ stdout (csv_to_sql_insert path path table_name w)
    = stdout w ++ ["An error occurred: CSV file has no headers"].
Proof.
  intros Hin. rewrite csv_to_sql_insert_alias by (by eexists).
  cbn. by rewrite lookup_insert_eq.
Qed.

(** X5. An input with a header and no data rows (nothing after the header,
    or blank lines only) gives the INSERT line followed at once by the
    semicolon, and the run reports success. *)
Theorem header_only_statement (w : World) (inp out table_name csv_text : string)
    (columns : list string) (recs : gen (list string)) :
  files w !! inp = Some csv_text → inp ≠ out →
  records csv_text = Yield columns recs → columns ≠ [] →
  ending recs = None → data_rows recs = [] →
  files (csv_to_sql_insert inp out table_name w) !! out
    = Some (("INSERT INTO " +:+ table_name +:+ " (" +:+ Py.join ", " columns
             +:+ ") VALUES" +:+ Py.newline) +:+ ";")
  ∧ stdout (csv_to_sql_insert inp out table_name w) = stdout w ++ [success_line out].
Proof.
  intros Hin Hne Hrec Hcols Hend Hrows.
  destruct (well_formed_run w inp out table_name csv_text columns recs)
    as (tuples & -> & Htuples); try done.
  { unfold rows_full. by rewrite Hrows. }
  rewrite Hrows in Htuples. apply Forall2_nil_inv_l in Htuples as ->.
  cbn. by rewrite lookup_insert_eq.
Qed.

End more_outcomes.

(** ** Records longer or shorter than the header, repeated names *)

Section odd_records.

Lemma zip_take_r (ks vs : list string) : zip ks (take (length ks) vs) = zip ks vs.
Proof.
  revert vs. induction ks as [|k ks IH]; intros [|v vs]; cbn; try done.
  by rewrite IH.
Qed.

Lemma named_make_row_take (columns rec : list string) :
  csv.named (csv.make_row columns (take (length columns) rec))
  = csv.named (csv.make_row columns rec).
Proof.
  destruct (decide (length rec ≤ length columns)) as [Hle|Hgt].
  { by rewrite take_ge. }
  unfold csv.make_row. rewrite length_take_le by lia.
  rewrite Nat.ltb_irrefl.
  destruct (Nat.ltb_spec (length columns) (length rec)); [|lia].
  cbn. unfold csv.dict_zip. by rewrite zip_take_r.
Qed.

(** X7. The fields of a record beyond the length of the header are ignored:
    the values written for a record are those written for the record cut to
    the length of the header. *)
Theorem surplus_fields_ignored (columns rec values : list string) :
  for_col (csv.make_row columns rec) columns values
  = for_col (csv.make_row columns (take (length columns) rec)) columns values.
Proof. apply for_col_named_ext. symmetry. apply named_make_row_take. Qed.

(** X8. When the values of a record are written although the record is
    shorter than the header, every position the record does not reach
    belongs to a [status] or [rate] column and holds the text [None]. *)
Theorem short_record_writes_None (columns rec values : list string) (i : nat)
    (col : string) :
  for_col (csv.make_row columns rec) columns [] = Ok values →
  columns !! i = Some col →
  length rec ≤ i →
  values !! i = Some "None" ∧ col ∈ NumericColumns.
Proof.
  intros (vs & -> & Hvs)%for_col_Ok_inv Hcol Hlen.
  destruct (Forall2_lookup_l _ _ _ _ _ Hvs Hcol) as (s & Hs & v & Hv & Hfmt).
  assert (col ∈ drop (length rec) columns) as Hmiss.
  { apply list_elem_of_lookup. exists (i - length rec).
    rewrite lookup_drop. by replace (length rec + (i - length rec)) with i by lia. }
  pose proof (make_row_lookup_missing columns rec col Hmiss) as Hnone.
  pose proof (eq_trans (eq_sym Hv) Hnone) as [= ->].
  destruct (format_value_Ok_inv _ _ _ Hfmt) as [Hnum|[? [=]]].
  rewrite format_value_numeric in Hfmt by done. injection Hfmt as <-.
  done.
Qed.

Lemma short_record_writes_None_witness :
  ["'7'"; "None"] !! 1 = Some "None" ∧ "rate" ∈ NumericColumns.
Proof.
  apply (short_record_writes_None ["id"; "rate"] ["7"] _ 1 "rate").
  - vm_compute. reflexivity.
  - reflexivity.
  - vm_compute. lia.
Defined.

Lemma foldl_zip_lookup_last (ks vs : list string) (d : gmap string Py.value)
    (j : nat) (col v : string) :
  ks !! j = Some col → vs !! j = Some v →
  (∀ k, j < k → ks !! k ≠ Some col) →
  foldl (λ d (kv : string * string), <[kv.1 := Some kv.2]> d) d (zip ks vs) !! col
  = Some (Some v).
Proof.
  revert vs d j. induction ks as [|k0 ks IH]; intros [|v0 vs] d j Hk Hv Hlast; try done.
  destruct j as [|j]; cbn in Hk, Hv |- *.
  - simplify_eq. rewrite foldl_zip_lookup_notin; [by rewrite lookup_insert_eq|].
    intros [i [Hi _]]%elem_of_take. by apply (Hlast (S i)); [lia|].
  - apply (IH vs _ j); [done..|]. intros k Hjk. apply (Hlast (S k)). lia.
Qed.

(** X9. When a column name occurs more than once in the header, every
    position with that name holds the field of the record that stands under
    the last occurrence of the name. *)
Theorem repeated_name_takes_last_field (columns rec values : list string)
    (i j : nat) (col v : string) :
  for_col (csv.make_row columns rec) columns [] = Ok values →
  columns !! i = Some col →
  columns !! j = Some col →
  (∀ k, j < k → columns !! k ≠ Some col) →
  rec !! j = Some v →
  ∃ s, values !! i = Some s ∧ format_value col (Some v) = Ok s.
Proof.
  intros (vs & -> & Hvs)%for_col_Ok_inv Hi Hj Hlast Hv.
  destruct (Forall2_lookup_l _ _ _ _ _ Hvs Hi) as (s & Hs & v0 & Hv0 & Hfmt).
  exists s. split; [done|].
  assert (csv.named (csv.make_row columns rec) !! col = Some (Some v)) as Hnamed.
  { assert (csv.dict_zip columns rec !! col = Some (Some v)) as Hz
      by by eapply foldl_zip_lookup_last.
    unfold csv.make_row. repeat case_match; try done.
    cbn. rewrite fill_restval_lookup, decide_False; [done|].
    intros [k Hk]%list_elem_of_lookup. rewrite lookup_drop in Hk.
    apply lookup_lt_Some in Hv. by apply (Hlast (length rec + k)); [lia|]. }
  by pose proof (eq_trans (eq_sym Hv0) Hnamed) as [= ->].
Qed.

Lemma repeated_name_takes_last_field_witness :
  ∃ s, ["'second'"; "'x'"; "'second'"] !! 0 = Some s
       ∧ format_value "a" (Some "second") = Ok s.
Proof.
  apply (repeated_name_takes_last_field ["a"; "b"; "a"] ["first"; "x"; "second"] _
           0 2 "a" "second").
  - vm_compute. reflexivity.
  - reflexivity.
  - reflexivity.
  - intros k Hk. rewrite lookup_ge_None_2; [done | cbn; lia].
  - reflexivity.
Defined.

End odd_records.

(** ** The quoted value as an SQL literal *)

Section literal.

Lemma read_literal_body_double_quotes (v rest : string) :
  starts_with_quote rest = false →
  read_literal_body (double_quotes v +:+ "'" +:+ rest) = Some (v, rest).
Proof.
  intros Hrest. induction v as [|c v IH].
  - change (read_literal_body (String quote rest) = Some ("", rest)).
    cbn [read_literal_body]. rewrite Ascii.eqb_refl.
    destruct rest as [|c' rest]; [done|].
    cbn [starts_with_quote] in Hrest. by rewrite Hrest.
  - cbn [double_quotes]. destruct (Ascii.eqb_spec c quote) as [->|Hc].
    + change (read_literal_body
                (String quote (String quote (double_quotes v +:+ "'" +:+ rest)))
              = Some (String quote v, rest)).
      cbn [read_literal_body]. rewrite !Ascii.eqb_refl, IH. done.
    + change (read_literal_body (String c (double_quotes v +:+ "'" +:+ rest))
              = Some (String c v, rest)).
      cbn [read_literal_body].
      destruct (Ascii.eqb_spec c quote); [done|]. by rewrite IH.
Qed.

(** X10. The text written for a value of a column other than [status] and
    [rate] is one complete SQL string literal: read as such, with a doubled
    quote standing for one quote, it ends exactly where the written text
    ends and its value is the raw value, whatever quotes the raw value
    contains. *)
Theorem quoted_value_reads_back (col v lit rest : string) :
  col ∉ NumericColumns →
  format_value col (Some v) = Ok lit →
  starts_with_quote rest = false →
  read_literal (lit +:+ rest) = Some (v, rest).
Proof.
  intros Hnum Hfmt Hrest. rewrite format_value_string in Hfmt by done.
  injection Hfmt as <-. rewrite !string_app_assoc.
  change (read_literal (String quote (double_quotes v +:+ "'" +:+ rest)) = Some (v, rest)).
  cbn [read_literal]. rewrite Ascii.eqb_refl.
  by apply read_literal_body_double_quotes.
Qed.

Lemma quoted_value_reads_back_witness :
  read_literal ("'x''); DROP TABLE orders; --'" +:+ ", 1)")
  = Some ("x'); DROP TABLE orders; --", ", 1)").
Proof.
  apply (quoted_value_reads_back "address" "x'); DROP TABLE orders; --").
  - apply (bool_decide_unpack _). vm_compute. exact I.
  - vm_compute. reflexivity.
  - reflexivity.
Defined.

End literal.

(** ** Plain files, end to end *)

Section plain_files.

#[local] Arguments csv.is_crnl : simpl never.

Lemma no_special_inv c s :
  no_special (String c s) →
  Ascii.eqb c "034"%char = false ∧ csv.is_crnl c = false ∧ no_special s.
Proof.
  cbn [no_special]. intros [[H1 H2]%andb_prop_elim H3]%andb_prop_elim.
  split_and!; [| |done].
  - by destruct (Ascii.eqb c "034"%char).
  - by destruct (csv.is_crnl c).
Qed.

Lemma no_special_no_crnl s : no_special s → no_crnl s.
Proof.
  induction s as [|c s IH]; [done|].
  intros (_ & Hc & Hs)%no_special_inv. cbn [no_crnl]. rewrite Hc. cbn. by apply IH.
Qed.

Lemma split_from_not_nil delim cur s : split_from delim cur s ≠ [].
Proof.
  revert cur. induction s as [|c s IH]; intros cur; [done|].
  cbn. destruct (Ascii.eqb c delim); [done|]. apply IH.
Qed.

(** One line of a file, taken off the front of the text. *)
Lemma readlines_from_line (b : string) : ∀ cur eol rest,
  no_crnl b → eol ∈ [Py.newline; CRLF] →
  Py.readlines_from cur (b +:+ eol +:+ rest)
  = (cur +:+ b +:+ eol) :: Py.readlines_from "" rest.
Proof.
  induction b as [|c b IH]; intros cur eol rest Hb Heol.
  - change (Py.readlines_from cur (eol +:+ rest)
            = (cur +:+ eol) :: Py.readlines_from "" rest).
    apply elem_of_cons in Heol as [->|Heol]; [done|].
    by apply list_elem_of_singleton in Heol as ->.
  - cbn [no_crnl] in Hb. apply andb_prop_elim in Hb as [Hc Hb].
    change (Py.readlines_from cur (String c (b +:+ eol +:+ rest))
            = (cur +:+ String c (b +:+ eol)) :: Py.readlines_from "" rest).
    cbn [Py.readlines_from].
    assert (Ascii.eqb c Py.LF = false ∧ Ascii.eqb c Py.CR = false) as [-> ->].
    { unfold csv.is_crnl in Hc.
      destruct (Ascii.eqb c Py.LF), (Ascii.eqb c Py.CR); done. }
    rewrite IH by done. f_equal.
    rewrite string_app_assoc. done.
Qed.

Lemma readlines_text_of (eol : string) (lines : list string) :
  eol ∈ [Py.newline; CRLF] → Forall (λ l, no_crnl l) lines →
  Py.readlines (text_of eol lines) = (λ l, l +:+ eol) <$> lines.
Proof.
  intros Heol Hlines. unfold Py.readlines.
  induction Hlines as [|l lines Hl _ IH]; [done|].
  cbn [text_of]. rewrite readlines_from_line by done. cbn. by rewrite IH.
Qed.

(** The parser on the rest of a plain line: the fields are the pieces
    between the semicolons. *)
Lemma parse_line_plain (s : string) : ∀ self term,
  no_special s →
  csv.state self = csv.START_FIELD ∨ csv.state self = csv.IN_FIELD →
  String.length (csv.field self) + String.length s ≤ N.to_nat csv.field_limit →
  term ∈ [Py.newline; CRLF] →
  csv.parse_line csv.excel_semicolon self (s +:+ term)
  = Ok {| csv.state := csv.START_RECORD;
          csv.fields := csv.fields self ++ split_from ";" (csv.field self) s;
          csv.field := "" |}.
Proof.
  induction s as [|c s IH]; intros [st fs f] term Hs Hst Hlen Hterm;
    cbn [csv.state csv.field csv.fields] in *.
  - apply elem_of_cons in Hterm as [->|Hterm];
      [|apply list_elem_of_singleton in Hterm as ->];
      destruct Hst as [-> | ->]; reflexivity.
  - apply no_special_inv in Hs as (Hq & Hc & Hs).
    change (String c s +:+ term) with (String c (s +:+ term)).
    cbn [csv.parse_line String.length] in Hlen |- *.
    assert (csv.parse_process_char csv.excel_semicolon
              {| csv.state := st; csv.fields := fs; csv.field := f |} (Some c)
            = Ok (if Ascii.eqb c ";"
                  then {| csv.state := csv.START_FIELD; csv.fields := fs ++ [f];
                          csv.field := "" |}
                  else {| csv.state := csv.IN_FIELD; csv.fields := fs;
                          csv.field := f +:+ String c "" |})) as ->.
    { unfold csv.parse_process_char, csv.start_field, csv.in_field, csv.parse_add_char.
      assert ((csv.field_limit <=? N.of_nat (String.length f))%N = false) as Hlim
        by (apply N.leb_gt; lia).
      destruct Hst as [-> | ->]; cbn [csv.state csv.field csv.fields];
        rewrite Hlim; cbn; rewrite Hc, ?Hq; cbn;
        destruct (Ascii.eqb c ";"); cbn; try done.
      all: by destruct (Ascii.eqb c " "). }
    cbn [mbind result_bind].
    destruct (Ascii.eqb_spec c ";") as [->|Hsemi].
    + rewrite IH; [|done|by left|cbn; lia|done].
      cbn. by rewrite <- app_assoc.
    + rewrite IH; [|done|by right|cbn; rewrite length_string_app; cbn; lia|done].
      cbn. destruct (Ascii.eqb_spec c ";"); done.
Qed.

Lemma parse_line_plain_record (b term : string) :
  plain_line b → term ∈ [Py.newline; CRLF] →
  csv.parse_line csv.excel_semicolon csv.parse_reset (b +:+ term)
  = Ok {| csv.state := csv.START_RECORD; csv.fields := split ";" b; csv.field := "" |}.
Proof.
  intros (Hne & Hb & Hlen) Hterm. destruct b as [|c b]; [done|].
  pose proof (no_special_inv _ _ Hb) as (_ & Hc & _).
  pose proof (parse_line_plain (String c b)
                {| csv.state := csv.START_FIELD; csv.fields := []; csv.field := "" |}
                term Hb (or_introl eq_refl) Hlen Hterm) as Hp.
  cbn [csv.fields csv.field app] in Hp. unfold split. rewrite <- Hp.
  change (String c b +:+ term) with (String c (b +:+ term)).
  cbn [csv.parse_line]. unfold csv.parse_process_char.
  cbn [csv.state csv.parse_reset]. by rewrite Hc.
Qed.

Lemma reader_plain (eol : string) (lines : list string) :
  eol ∈ [Py.newline; CRLF] → Forall plain_line lines →
  csv.reader ((λ l, l +:+ eol) <$> lines) = of_list (split ";" <$> lines).
Proof.
  intros Heol Hlines. unfold csv.reader.
  induction Hlines as [|l lines Hl _ IH]; [done|].
  cbn [fmap list_fmap csv.reader_from of_list].
  rewrite parse_line_plain_record by done. cbn. by rewrite IH.
Qed.

Lemma records_text_of (eol : string) (lines : list string) :
  eol ∈ [Py.newline; CRLF] → Forall plain_line lines →
  records (text_of eol lines) = of_list (split ";" <$> lines).
Proof.
  intros Heol Hlines. unfold records.
  rewrite readlines_text_of; [by apply reader_plain|done|].
  eapply Forall_impl; [exact Hlines|]. intros l (_ & Hl & _). by apply no_special_no_crnl.
Qed.

Lemma format_value_render (col v : string) :
  format_value col (Some v) = Ok (render_value col v).
Proof.
  unfold render_value. case_bool_decide.
  - by rewrite format_value_numeric.
  - by rewrite format_value_string.
Qed.

(** With distinct names and a record that reaches every column, the values
    written are the fields of the record, each rendered for its column. *)
Lemma for_col_render (columns rec : list string) :
  NoDup columns → length columns ≤ length rec →
  for_col (csv.make_row columns rec) columns []
  = Ok (zip_with render_value columns rec).
Proof.
  intros Hnd Hlen.
  destruct (for_col_spec (csv.make_row columns rec) columns [])
    as [(vs & -> & Hvs)|[_ Hlack]].
  - intros col Hcol. by apply make_row_lookup_is_Some.
  - cbn [app]. f_equal. apply list_eq. intros k. rewrite lookup_zip_with.
    destruct (columns !! k) as [col|] eqn:Hk; cbn.
    + destruct (Forall2_lookup_l _ _ _ _ _ Hvs Hk) as (s & -> & v0 & Hv0 & Hfmt).
      destruct (lookup_lt_is_Some_2 rec k) as [v Hv].
      { apply lookup_lt_Some in Hk. lia. }
      rewrite Hv. cbn.
      pose proof (make_row_lookup_position columns rec k col v Hnd Hk Hv) as Hpos.
      pose proof (eq_trans (eq_sym Hv0) Hpos) as [= ->].
      rewrite format_value_render in Hfmt. by injection Hfmt as <-.
    + apply lookup_ge_None. apply Forall2_length in Hvs.
      apply lookup_ge_None in Hk. lia.
  - by apply full_row_not_lacking in Hlack.
Qed.

Lemma for_row_render (columns : list string) (recs : list (list string))
    (rows : list string) :
  NoDup columns →
  Forall (λ rec, rec ≠ [] ∧ length columns ≤ length rec) recs →
  for_row columns (csv.DictReader columns (of_list recs)) rows
  = Ok (rows ++ (render_tuple columns <$> recs)).
Proof.
  intros Hnd Hrecs. revert rows.
  induction Hrecs as [|rec recs [Hne Hlen] _ IH]; intros rows.
  { cbn. by rewrite app_nil_r. }
  destruct rec as [|f rec]; [done|].
  cbn [of_list csv.DictReader for_row].
  rewrite for_col_render by done. cbn [mbind result_bind].
  rewrite IH. by rewrite <- app_assoc.
Qed.

(** X11. For a file of plain lines (no line empty, none with a double
    quote, each ended by LF, or each by CR LF) whose header names are
    distinct and whose rows have at least as many fields as the header, the
    output is the INSERT line for the header split at the semicolons,
    followed by one tuple per row: the fields of the row split at the
    semicolons, each quoted with its quotes doubled unless its column is
    [status] or [rate], joined by a comma and a space; the tuples are joined
    by a comma and a line feed and closed by a semicolon. *)
Theorem plain_file_statement (w : World) (inp out table_name eol header : string)
    (rows : list string) :
  files w !! inp = Some (text_of eol (header :: rows)) →
  inp ≠ out →
  eol ∈ [Py.newline; CRLF] →
  Forall plain_line (header :: rows) →
  NoDup (split ";" header) →
  Forall (λ r, length (split ";" header) ≤ length (split ";" r)) rows →
  files (csv_to_sql_insert inp out table_name w) !! out
    = Some (("INSERT INTO " +:+ table_name +:+ " ("
             +:+ Py.join ", " (split ";" header) +:+ ") VALUES" +:+ Py.newline)
            +:+ Py.join ("," +:+ Py.newline)
                  ((λ r, render_tuple (split ";" header) (split ";" r)) <$> rows)
            +:+ ";")
  ∧ stdout (csv_to_sql_insert inp out table_name w) = stdout w ++ [success_line out].
Proof.
  intros Hin Hne Heol Hplain Hnd Hlen.
  rewrite (csv_to_sql_insert_run _ _ _ _ _ Hin Hne).
  pose proof (records_text_of eol (header :: rows) Heol Hplain) as Hrec.
  cbn [fmap list_fmap of_list] in Hrec.
  rewrite (with_body_header _ _ _ _ Hrec) by apply split_from_not_nil.
  rewrite for_row_render; [|done|].
  - cbn. rewrite lookup_insert_eq. by rewrite <- list_fmap_compose.
  - apply Forall_fmap. eapply Forall_impl; [exact Hlen|].
    intros r Hr. split; [apply split_from_not_nil | done].
Qed.

Lemma plain_file_statement_witness :
  files (csv_to_sql_insert "in.csv" "out.sql" "t" plain_world) !! "out.sql"
    = Some (("INSERT INTO " +:+ "t" +:+ " ("
             +:+ Py.join ", " (split ";" "id;name;rate") +:+ ") VALUES" +:+ Py.newline)
            +:+ Py.join ("," +:+ Py.newline)
                  ((λ r, render_tuple (split ";" "id;name;rate") (split ";" r))
                     <$> ["1;O'Hara;9.5"; "2;;x;y"])
            +:+ ";")
  ∧ stdout (csv_to_sql_insert "in.csv" "out.sql" "t" plain_world)
    = stdout plain_world ++ [success_line "out.sql"].
Proof.
  apply (plain_file_statement plain_world "in.csv" "out.sql" "t" CRLF "id;name;rate"
           ["1;O'Hara;9.5"; "2;;x;y"]).
  - reflexivity.
  - apply (bool_decide_unpack _). vm_compute. exact I.
  - apply (bool_decide_unpack _). vm_compute. exact I.
  - repeat (apply Forall_cons; split).
    4: apply Forall_nil.
    all: split.
    1, 3, 5: discriminate.
    all: split.
    1, 3, 5: (vm_compute; exact I).
    all: apply Nat.leb_le; vm_compute; reflexivity.
  - apply (bool_decide_unpack _). vm_compute. exact I.
  - constructor. 2: constructor. 3: constructor.
    all: apply Nat.leb_le; vm_compute; reflexivity.
Defined.

End plain_files.

(** ** Witnesses, and a second run *)

Section more_witnesses.



Lemma same_path_destroys_input_witness :
  files (csv_to_sql_insert "orders_data.csv" "orders_data.csv" "orders" example_world)
    !! "orders_data.csv" = Some ""
  ∧ stdout (csv_to_sql_insert "orders_data.csv" "orders_data.csv" "orders" example_world)
    = stdout example_world ++ ["An error occurred: CSV file has no headers"].
Proof.
  apply (same_path_destroys_input example_world "orders_data.csv" "orders"
           (example_header +:+ Py.newline +:+ example_row)).
  reflexivity.
Defined.

Lemma header_only_statement_witness :
  files (csv_to_sql_insert "in.csv" "out.sql" "t" header_only_world) !! "out.sql"
    = Some (("INSERT INTO " +:+ "t" +:+ " (" +:+ Py.join ", " ["id"; "name"]
             +:+ ") VALUES" +:+ Py.newline) +:+ ";")
  ∧ stdout (csv_to_sql_insert "in.csv" "out.sql" "t" header_only_world)
    = stdout header_only_world ++ [success_line "out.sql"].
Proof.
  apply (header_only_statement header_only_world "in.csv" "out.sql" "t" header_only_text
           ["id"; "name"] (Yield [] Stop)).
  - reflexivity.
  - apply (bool_decide_unpack _). vm_compute. exact I.
  - vm_compute. reflexivity.
  - apply (bool_decide_unpack _). vm_compute. exact I.
  - reflexivity.
  - vm_compute. reflexivity.
Defined.

(** X13. Running the converter a second time with the same arguments
    leaves at the output path what the first run left there. *)
Theorem second_run_same_output (w : World) (inp out table_name : string) :
  is_Some (files w !! inp) →
  files (csv_to_sql_insert inp out table_name
           (csv_to_sql_insert inp out table_name w)) !! out
  = files (csv_to_sql_insert inp out table_name w) !! out
  ∧ printed (csv_to_sql_insert inp out table_name w)
      (csv_to_sql_insert inp out table_name
         (csv_to_sql_insert inp out table_name w))
    = printed w (csv_to_sql_insert inp out table_name w).
Proof.
  intros [csv_text Hin]. split; [apply csv_to_sql_insert_twice; by eexists|].
  destruct (csv_to_sql_insert_outcome w inp out table_name csv_text Hin)
    as (written & line & Hpair & Hrun).
  destruct (decide (inp = out)) as [<-|Hne].
  - injection Hpair as -> ->. rewrite Hrun.
    rewrite csv_to_sql_insert_alias by (cbn; rewrite lookup_insert_eq; by eexists).
    unfold printed. cbn [stdout]. by rewrite !drop_app_length.
  - assert (files (csv_to_sql_insert inp out table_name w) !! inp = Some csv_text) as Hin'.
    { rewrite Hrun. cbn. by rewrite lookup_insert_ne. }
    destruct (csv_to_sql_insert_outcome _ inp out table_name csv_text Hin')
      as (written' & line' & Hpair' & Hrun').
    rewrite decide_False in Hpair' by done.
    rewrite <- Hpair in Hpair'. injection Hpair' as -> ->.
    rewrite Hrun'. rewrite Hrun. unfold printed. cbn [stdout].
    by rewrite !drop_app_length.
Qed.

Lemma second_run_same_output_witness :
  files (csv_to_sql_insert "in.csv" "out.sql" "t"
           (csv_to_sql_insert "in.csv" "out.sql" "t" two_rows_world)) !! "out.sql"
  = files (csv_to_sql_insert "in.csv" "out.sql" "t" two_rows_world) !! "out.sql"
  ∧ printed (csv_to_sql_insert "in.csv" "out.sql" "t" two_rows_world)
      (csv_to_sql_insert "in.csv" "out.sql" "t"
         (csv_to_sql_insert "in.csv" "out.sql" "t" two_rows_world))
    = printed two_rows_world (csv_to_sql_insert "in.csv" "out.sql" "t" two_rows_world).
Proof.
  apply (second_run_same_output two_rows_world "in.csv" "out.sql" "t").
  apply (bool_decide_unpack _). vm_compute. exact I.
Defined.

End more_witnesses.

(** ** C4: a field beyond the limit of the csv module *)

Section field_limit.

#[local] Arguments csv.is_crnl : simpl never.








End field_limit.
